(** * bunutils: predicate combinators, the [Where] descriptor and [InTx]

    A shallow embedding of the Go package [bunutils] (selectors.go, tx.go and
    the file of the [Where] descriptor) and the properties of its
    specification.

    - Go strings are [string]; [int] and [int64] values are [Z] (the code
      performs no arithmetic on them, so no wrap-around is involved);
    - a nil pointer, nil func or nil interface is [None];
    - [map[int]string] is a [gmap Z string], the nil map being the empty one;
    - the query builder, the transaction handle and the database are external
      collaborators and are modelled through the calls made on them. *)

From Stdlib Require Import ZArith List Bool Ascii String.
From stdpp Require Import base gmap strings list.
Import ListNotations.

Open Scope Z_scope.
Open Scope string_scope.
Open Scope list_scope.

Set Warnings "-register-all".

(** ** JSONB path expressions (selectors.go) *)

Module Jsonb.

(** [strings.ReplaceAll(segment, "'", "''")]. *)
Fixpoint escapeJsonPathSegment (segment : string) : string :=
  match segment with
  | EmptyString => EmptyString
  | String c rest =>
      if Ascii.eqb c "'"%char
      then String "'" (String "'" (escapeJsonPathSegment rest))
      else String c (escapeJsonPathSegment rest)
  end.

(** [fmt.Sprintf(" %s '%s'", operator, segment)]. *)
Definition sprintf_op (operator segment : string) : string :=
  " " +:+ operator +:+ " '" +:+ segment +:+ "'".

(** The body of the [for idx, segment := range path] loop, run from index
    [idx] on the remaining segments; [len] is [len(path)]. *)
Fixpoint jsonbPathLoop (len : Z) (text : bool) (idx : Z) (rest : list string)
    (expr : string) : string :=
  match rest with
  | [] => expr
  | segment :: rest' =>
      if String.eqb segment ""
      then jsonbPathLoop len text (idx + 1) rest' expr
      else
        let operator :=
          if text && Z.eqb idx (len - 1) then "->>" else "->" in
        jsonbPathLoop len text (idx + 1) rest'
          (expr +:+ sprintf_op operator (escapeJsonPathSegment segment))
  end.

Definition jsonbPathExpression (path : list string) (text : bool) : string :=
  jsonbPathLoop (Z.of_nat (length path)) text 0 path "?TableAlias.?".

(** The specification's reading, to be compared with the code: the segments
    that are emitted are the non-empty ones, in order; with [wantText] the
    last of those takes the text-extraction operator and the earlier ones the
    object-extraction operator. *)
Definition nonEmptySegments (path : list string) : list string :=
  List.filter (fun s => negb (String.eqb s "")) path.

Fixpoint emitSegments (wantText : bool) (segs : list string) (expr : string)
    : string :=
  match segs with
  | [] => expr
  | [s] =>
      expr +:+ sprintf_op (if wantText then "->>" else "->")
                (escapeJsonPathSegment s)
  | s :: rest =>
      emitSegments wantText rest
        (expr +:+ sprintf_op "->" (escapeJsonPathSegment s))
  end.

Definition jsonbPathExpression_spec (path : list string) (wantText : bool)
    : string :=
  emitSegments wantText (nonEmptySegments path) "?TableAlias.?".

End Jsonb.

(** ** The query builder (external: [*bun.SelectQuery])

    Every builder method mutates the query it is called on and returns that
    same pointer, so [q.M(...)] and [q = q.M(...)] are the same step; the
    embedding threads the builder state through the calls. *)

Module Bun.

(** The arguments that this package passes for the placeholders. *)
Inductive Arg : Type :=
  | Ident (name : string)          (* bun.Ident(name) *)
  | Str (s : string)
  | Int (n : Z)
  | Time (unixMilli : Z)           (* time.UnixMilli(n), a time.Time *)
  | In (values : list string).     (* bun.In(values) *)

(** The methods of the builder that the package calls. *)
Class SelectQuery (Q : Type) : Type := {
  Where : string -> list Arg -> Q -> Q;
  WhereGroup : string -> (Q -> Q) -> Q -> Q;
  WhereDeleted : Q -> Q;
  WhereAllWithDeleted : Q -> Q;
  Column : list string -> Q -> Q;
  ExcludeColumn : list string -> Q -> Q;
  Limit : Z -> Q -> Q;
  Offset : Z -> Q -> Q;
  Order : list string -> Q -> Q;
  OrderExpr : string -> list Arg -> Q -> Q;
  DistinctOn : string -> list Arg -> Q -> Q
}.

(** A builder that records the calls made on it, in order. The function of a
    group is run on a builder with no recorded call, and what it records is
    kept inside the group. *)
Inductive Call : Type :=
  | CWhere (query : string) (args : list Arg)
  | CWhereGroup (sep : string) (body : list Call)
  | CWhereDeleted
  | CWhereAllWithDeleted
  | CColumn (columns : list string)
  | CExcludeColumn (columns : list string)
  | CLimit (n : Z)
  | COffset (n : Z)
  | COrder (orders : list string)
  | COrderExpr (query : string) (args : list Arg)
  | CDistinctOn (query : string) (args : list Arg).

Definition Log : Type := list Call.

#[global] Instance LogQuery : SelectQuery Log := {|
  Where query args q := q ++ [CWhere query args];
  WhereGroup sep fn q := q ++ [CWhereGroup sep (fn [])];
  WhereDeleted q := q ++ [CWhereDeleted];
  WhereAllWithDeleted q := q ++ [CWhereAllWithDeleted];
  Column columns q := q ++ [CColumn columns];
  ExcludeColumn columns q := q ++ [CExcludeColumn columns];
  Limit n q := q ++ [CLimit n];
  Offset n q := q ++ [COffset n];
  Order orders q := q ++ [COrder orders];
  OrderExpr query args q := q ++ [COrderExpr query args];
  DistinctOn query args q := q ++ [CDistinctOn query args]
|}.

(** The identifiers a recorded call refers to. *)
Definition identsOfArgs (args : list Arg) : list string :=
  flat_map (fun a => match a with Ident name => [name] | _ => [] end) args.

Definition identsOf (c : Call) : list string :=
  match c with
  | CWhere _ args | COrderExpr _ args | CDistinctOn _ args => identsOfArgs args
  | _ => []
  end.

Definition isOrder (c : Call) : bool :=
  match c with COrder _ => true | _ => false end.

End Bun.

(** ** Selectors and their combinators (selectors.go) *)

Section Selectors.
Context {Q : Type} `{BQ : Bun.SelectQuery Q}.

(** [type Selector func(q) q] over builder pointers; the nil func is
    [None]. *)
Definition Selector : Type := option (Q -> Q).

(** The loop of [Apply]: [for _, selector := range selectors]. *)
Fixpoint applyLoop (selectors : list Selector) (q : Q) : Q :=
  match selectors with
  | [] => q
  | selector :: rest =>
      match selector with
      | Some f => applyLoop rest (f q)
      | None => applyLoop rest q
      end
  end.

Definition Apply (selectors : list Selector) : Selector :=
  Some (fun q => applyLoop selectors q).

Definition ApplyIf (cond : bool) (selectors : list Selector) : Selector :=
  if negb cond then None else Apply selectors.

(** The call [s(q)]. Calling a nil func panics in Go; the package only calls
    the result of [Apply] this way, which is never nil, so the [None] branch
    is not reached from the package's own code. *)
Definition runSelector (s : Selector) (q : Q) : Q :=
  match s with Some f => f q | None => q end.

Definition OrGroup (selectors : list Selector) : Selector :=
  Some (fun q =>
    Bun.WhereGroup " OR " (fun sq => runSelector (Apply selectors) sq) q).

Definition AndGroup (selectors : list Selector) : Selector :=
  Some (fun q =>
    Bun.WhereGroup " AND " (fun sq => runSelector (Apply selectors) sq) q).

(** Modelled from the spec: the helper [Map] that [Or] calls is not among the
    sources. [Or] "wraps each input predicate individually", so [Map] applies
    its function to every element and that element's index, in slice order,
    and returns the results in the same order. *)
Fixpoint MapFrom {A B : Type} (idx : Z) (collection : list A)
    (iteratee : A -> Z -> B) : list B :=
  match collection with
  | [] => []
  | item :: rest => iteratee item idx :: MapFrom (idx + 1) rest iteratee
  end.

Definition Map {A B : Type} (collection : list A) (iteratee : A -> Z -> B)
    : list B :=
  MapFrom 0 collection iteratee.

Definition Or (selectors : list Selector) : Selector :=
  AndGroup (Map selectors (fun s _ => OrGroup [s])).

(** Some of the elementary factories. *)
Definition WhereEqual (col : string) (value : Bun.Arg) : Selector :=
  Some (fun q => Bun.Where "?TableAlias.? = ?" [Bun.Ident col; value] q).

Definition WhereNotEqual (col : string) (value : Bun.Arg) : Selector :=
  Some (fun q => Bun.Where "?TableAlias.? != ?" [Bun.Ident col; value] q).

Definition WhereNull (col : string) : Selector :=
  Some (fun q => Bun.Where "?TableAlias.? is null" [Bun.Ident col] q).

Definition WhereNotNull (col : string) : Selector :=
  Some (fun q => Bun.Where "?TableAlias.? is not null" [Bun.Ident col] q).

Definition WhereIn (col : string) (values : list string) : Selector :=
  Some (fun q =>
    Bun.Where "?TableAlias.? IN (?)" [Bun.Ident col; Bun.In values] q).

Definition WhereJsonbPathEqual (col : string) (path : list string)
    (value : Bun.Arg) : Selector :=
  Some (fun q =>
    Bun.Where (Jsonb.jsonbPathExpression path true +:+ " = ?")
      [Bun.Ident col; value] q).

(** The specification's reading of [Apply]: drop the nil members, then apply
    the remaining functions one after the other, in argument order. *)
Definition nonNil (selectors : list Selector) : list (Q -> Q) :=
  omap (fun s : Selector => s) selectors.

Definition applySequentially (fs : list (Q -> Q)) (q : Q) : Q :=
  fold_left (fun acc f => f acc) fs q.

End Selectors.

Arguments Selector Q : clear implicits.

(** ** The filter descriptor ([type Where struct] and its methods) *)

Definition DefaultIDCol : string := "id".
Definition DefaultFlagsCol : string := "flags".
Definition DefaultCreatedAtCol : string := "created_at".
Definition DefaultUpdatedAtCol : string := "updated_at".

(** [type Where struct]; the [Order] field is a [map[int]string]. *)
Record Where : Type := mkWhere {
  ID : string;
  IDs : list string;
  NotInIDs : list string;
  HasFlags : list Z;
  HasNotFlags : list Z;
  OnlyDeleted : bool;
  WithDeleted : bool;
  Limit : option Z;
  Offset : option Z;
  FlagsCol : string;
  CreatedAtCol : string;
  UpdatedAtCol : string;
  CreatedAfter : option Z;
  CreatedBefore : option Z;
  UpdatedAfter : option Z;
  UpdatedBefore : option Z;
  SelectColumns : list string;
  ExcludeColumns : list string;
  SortBy : Z;
  SortDesc : bool;
  Order : gmap Z string
}.

(** The zero value [Where{}]. *)
Definition zeroWhere : Where :=
  mkWhere "" [] [] [] [] false false None None "" "" "" None None None None
    [] [] 0 false ∅.

(** Assignments to single fields. *)
Definition setFlagsCol (v : string) (w : Where) : Where :=
  mkWhere (ID w) (IDs w) (NotInIDs w) (HasFlags w) (HasNotFlags w)
    (OnlyDeleted w) (WithDeleted w) (Limit w) (Offset w)
    v (CreatedAtCol w) (UpdatedAtCol w)
    (CreatedAfter w) (CreatedBefore w) (UpdatedAfter w) (UpdatedBefore w)
    (SelectColumns w) (ExcludeColumns w) (SortBy w) (SortDesc w) (Order w).

Definition setCreatedAtCol (v : string) (w : Where) : Where :=
  mkWhere (ID w) (IDs w) (NotInIDs w) (HasFlags w) (HasNotFlags w)
    (OnlyDeleted w) (WithDeleted w) (Limit w) (Offset w)
    (FlagsCol w) v (UpdatedAtCol w)
    (CreatedAfter w) (CreatedBefore w) (UpdatedAfter w) (UpdatedBefore w)
    (SelectColumns w) (ExcludeColumns w) (SortBy w) (SortDesc w) (Order w).

Definition setUpdatedAtCol (v : string) (w : Where) : Where :=
  mkWhere (ID w) (IDs w) (NotInIDs w) (HasFlags w) (HasNotFlags w)
    (OnlyDeleted w) (WithDeleted w) (Limit w) (Offset w)
    (FlagsCol w) (CreatedAtCol w) v
    (CreatedAfter w) (CreatedBefore w) (UpdatedAfter w) (UpdatedBefore w)
    (SelectColumns w) (ExcludeColumns w) (SortBy w) (SortDesc w) (Order w).

Definition setWithDeleted (v : bool) (w : Where) : Where :=
  mkWhere (ID w) (IDs w) (NotInIDs w) (HasFlags w) (HasNotFlags w)
    (OnlyDeleted w) v (Limit w) (Offset w)
    (FlagsCol w) (CreatedAtCol w) (UpdatedAtCol w)
    (CreatedAfter w) (CreatedBefore w) (UpdatedAfter w) (UpdatedBefore w)
    (SelectColumns w) (ExcludeColumns w) (SortBy w) (SortDesc w) (Order w).

(** [len(s) > 0]. *)
Definition nonEmptySlice {A : Type} (s : list A) : bool :=
  (0 <? Z.of_nat (List.length s))%Z.

Definition OrderAsc (col : string) : string := col +:+ " asc".
Definition OrderDesc (col : string) : string := col +:+ " desc".

Section Descriptor.
Context {Q : Type} `{BQ : Bun.SelectQuery Q}.

(** The three assignments at the head of [(w *Where) Where]. *)
Definition injectDefaults (w : Where) : Where :=
  let w := if String.eqb (FlagsCol w) "" then setFlagsCol DefaultFlagsCol w else w in
  let w := if String.eqb (CreatedAtCol w) ""
           then setCreatedAtCol DefaultCreatedAtCol w else w in
  let w := if String.eqb (UpdatedAtCol w) ""
           then setUpdatedAtCol DefaultUpdatedAtCol w else w in
  w.

(** The conditions of [(w *Where) Where], after the defaults are injected. *)
Definition whereConditions (w : Where) (q : Q) : Q :=
  let q := if negb (String.eqb (ID w) "")
           then Bun.Where "?TableAlias.? = ?"
                  [Bun.Ident DefaultIDCol; Bun.Str (ID w)] q
           else q in
  let q := if nonEmptySlice (IDs w)
           then Bun.Where "?TableAlias.? IN (?)"
                  [Bun.Ident DefaultIDCol; Bun.In (IDs w)] q
           else q in
  let q := if nonEmptySlice (NotInIDs w)
           then Bun.Where "?TableAlias.? NOT IN (?)"
                  [Bun.Ident DefaultIDCol; Bun.In (NotInIDs w)] q
           else q in
  let q := fold_left
             (fun q flag =>
                Bun.Where "?TableAlias.? & ? = ?"
                  [Bun.Ident DefaultFlagsCol; Bun.Int flag; Bun.Int flag] q)
             (HasFlags w) q in
  let q := fold_left
             (fun q flag =>
                Bun.Where "?TableAlias.? & ? = 0"
                  [Bun.Ident DefaultFlagsCol; Bun.Int flag] q)
             (HasNotFlags w) q in
  let q := if OnlyDeleted w then Bun.WhereDeleted q
           else if WithDeleted w then Bun.WhereAllWithDeleted q
           else q in
  let q := match CreatedAfter w with
           | Some t => Bun.Where "?TableAlias.? >= ?"
                         [Bun.Ident DefaultCreatedAtCol; Bun.Time t] q
           | None => q
           end in
  let q := match CreatedBefore w with
           | Some t => Bun.Where "?TableAlias.? <= ?"
                         [Bun.Ident DefaultCreatedAtCol; Bun.Time t] q
           | None => q
           end in
  let q := match UpdatedAfter w with
           | Some t => Bun.Where "?TableAlias.? >= ?"
                         [Bun.Ident DefaultUpdatedAtCol; Bun.Time t] q
           | None => q
           end in
  let q := match UpdatedBefore w with
           | Some t => Bun.Where "?TableAlias.? <= ?"
                         [Bun.Ident DefaultUpdatedAtCol; Bun.Time t] q
           | None => q
           end in
  q.

(** [func (w *Where) Where(q) q]: the receiver is a pointer, [None] when nil;
    the descriptor it points to is returned next to the query, since the
    method assigns to its fields. *)
Definition Where_Where (w : option Where) (q : Q) : option Where * Q :=
  match w with
  | None => (None, q)
  | Some w =>
      let w := injectDefaults w in
      (Some w, whereConditions w q)
  end.

(** [func (w *Where) Select(q) q]. *)
Definition Where_Select (w : option Where) (q : Q) : Q :=
  match w with
  | None => q
  | Some w =>
      let q := if nonEmptySlice (SelectColumns w)
               then Bun.Column (SelectColumns w) q else q in
      let q := if nonEmptySlice (ExcludeColumns w)
               then Bun.ExcludeColumn (ExcludeColumns w) q else q in
      let q := match Limit w with Some n => Bun.Limit n q | None => q end in
      let q := match Offset w with Some n => Bun.Offset n q | None => q end in
      let q := match Order w !! SortBy w with
               | Some col =>
                   if SortDesc w then Bun.Order [OrderDesc col] q
                   else Bun.Order [OrderAsc col] q
               | None => q
               end in
      q
  end.

(** [UseWhere(where Where)]: the descriptor is passed by value, so the
    assignments of the method reach the copy only. *)
Definition UseWhere (where_ : Where) : Selector Q :=
  Some (fun q => snd (Where_Where (Some where_) q)).

End Descriptor.

(** ** Ambient transactions (tx.go) *)

Module Tx.

(** *** Errors and panics *)

(** The error values involved: [errors.New(s)] and the value that
    [fmt.Errorf] builds for a format with one [%w] verb, which keeps its
    formatted message and the wrapped error. Go compares such values by
    pointer; the embedding compares them by structure. *)
Inductive GoError : Type :=
  | errorString (s : string)
  | wrapError (msg : string) (err : GoError).

#[global] Instance GoError_eq_dec : EqDecision GoError.
Proof. solve_decision. Defined.

(** The interface type [error]; [None] is nil. *)
Definition error : Type := option GoError.

Definition Error (e : GoError) : string :=
  match e with
  | errorString s => s
  | wrapError msg _ => msg
  end.

Definition Unwrap (e : GoError) : error :=
  match e with
  | errorString _ => None
  | wrapError _ err => Some err
  end.

(** [errors.Is(err, target)] for non-nil arguments: [target] is searched
    along the chain of [Unwrap]. *)
Fixpoint errors_Is (err target : GoError) : bool :=
  if decide (err = target) then true
  else match err with
       | errorString _ => false
       | wrapError _ inner => errors_Is inner target
       end.

(** [fmt.Errorf("%w: transaction rollback error: %v", err, rollbackErr)]. *)
Definition Errorf_rollback (err rollbackErr : GoError) : GoError :=
  wrapError (Error err +:+ ": transaction rollback error: " +:+ Error rollbackErr)
    err.

(** The value of a panic as [recover] returns it. From Go 1.21 on this value
    is never nil ([panic(nil)] is turned into a runtime error), and the
    package requires a later Go. *)
Inductive PanicVal : Type :=
  | PanicStr (s : string)
  | PanicErr (e : GoError)
  | PanicRuntime (msg : string).

(** *** Contexts *)

(** A pointer to a [bun.Tx]: the address of the variable that holds it. *)
Definition TxPtr : Type := nat.

(** Context keys: values of the package's [txKey] type, and all others. *)
Inductive Key : Type :=
  | txKey (n : Z)
  | otherKey (name : string).

#[global] Instance Key_eq_dec : EqDecision Key.
Proof. solve_decision. Defined.

Definition TxKey : Key := txKey 1.

(** What a context stores under a key: a [*bun.Tx], which may be the nil
    pointer, or a value of some other type. *)
Inductive Val : Type :=
  | VTx (tx : option TxPtr)
  | VOther (s : string).

(** A non-nil [context.Context]: the background context, or one derived by
    [context.WithValue]. *)
Inductive Context : Type :=
  | Background
  | WithValue (parent : Context) (key : Key) (val : Val).

(** [ctx.Value(key)]; [None] is the nil interface. *)
Fixpoint Value (ctx : Context) (key : Key) : option Val :=
  match ctx with
  | Background => None
  | WithValue parent k v =>
      if decide (k = key) then Some v else Value parent key
  end.

Definition TxFromContext (ctx : Context) : option TxPtr :=
  match Value ctx TxKey with
  | Some (VTx tx) => tx
  | _ => None
  end.

(** The [ctx] parameter may be the nil interface, [None]. *)
Definition TxToContext (ctx : option Context) (tx : option TxPtr) : Context :=
  let ctx := match ctx with None => Background | Some c => c end in
  WithValue ctx TxKey (VTx tx).

(** *** The database and the effects of a call *)

Inductive Event : Type :=
  | EvBegin (tx : TxPtr)
  | EvBeginFailed (err : GoError)
  | EvCommit (tx : TxPtr) (result : error)
  | EvRollback (tx : TxPtr) (result : error)
  | EvEnter (ctx : Context).

(** What has happened so far, and the next free address. *)
Record State : Type := mkState {
  events : list Event;
  nextTx : TxPtr
}.

Definition record (e : Event) (st : State) : State :=
  mkState (events st ++ [e]) (nextTx st).

(** The database handle: whether beginning, committing and rolling back fail
    is the collaborator's matter, and may depend on all that happened. *)
Record DB : Type := mkDB {
  beginErr : list Event -> error;
  commitErr : TxPtr -> list Event -> error;
  rollbackErr : TxPtr -> list Event -> error
}.

(** A Go call either returns or panics; its effects remain either way. *)
Inductive Outcome (A : Type) : Type :=
  | Returned (a : A)
  | Panicked (v : PanicVal).
Arguments Returned {A} a.
Arguments Panicked {A} v.

Definition M (A : Type) : Type := State -> Outcome A * State.

Definition ret {A : Type} (a : A) : M A := fun st => (Returned a, st).

Definition panic {A : Type} (v : PanicVal) : M A := fun st => (Panicked v, st).

Definition bind {A B : Type} (m : M A) (k : A -> M B) : M B :=
  fun st =>
    match m st with
    | (Returned a, st') => k a st'
    | (Panicked v, st') => (Panicked v, st')
    end.

Notation "x <- m ;; k" := (bind m (fun x => k))
  (at level 100, m at next level, right associativity).

(** [defer func() { if v := recover(); v != nil { handler } }()] around the
    rest of the function body. *)
Definition deferRecover {A : Type} (handler : PanicVal -> M A) (body : M A)
    : M A :=
  fun st =>
    match body st with
    | (Returned a, st') => (Returned a, st')
    | (Panicked v, st') => handler v st'
    end.

(** [client.BeginTx(ctx, nil)], with the address of the variable that
    receives the transaction. *)
Definition BeginTx (client : DB) : M (GoError + TxPtr) :=
  fun st =>
    match beginErr client (events st) with
    | Some err => (Returned (inl err), record (EvBeginFailed err) st)
    | None =>
        (Returned (inr (nextTx st)),
         mkState (events st ++ [EvBegin (nextTx st)]) (S (nextTx st)))
    end.

Definition Commit (client : DB) (tx : TxPtr) : M error :=
  fun st =>
    let result := commitErr client tx (events st) in
    (Returned result, record (EvCommit tx result) st).

Definition Rollback (client : DB) (tx : TxPtr) : M error :=
  fun st =>
    let result := rollbackErr client tx (events st) in
    (Returned result, record (EvRollback tx result) st).

(** *** InTx *)

(** [InTx] from [ctxWithTx := TxToContext(ctx, tx)] on. *)
Definition inTxWith (ctx : Context) (client : DB) (fn : Context -> M error)
    (rootTx : bool) (tx : TxPtr) : M error :=
  let ctxWithTx := TxToContext (Some ctx) (Some tx) in
  if negb rootTx then fn ctxWithTx
  else
    deferRecover
      (fun v => _ <- Rollback client tx ;; panic v)
      (err <- fn ctxWithTx ;;
       match err with
       | None =>
           err <- Commit client tx ;;
           match err with
           | Some e => ret (Some e)
           | None => ret None
           end
       | Some e =>
           rollbackErr <- Rollback client tx ;;
           match rollbackErr with
           | Some re => ret (Some (Errorf_rollback e re))
           | None => ret (Some e)
           end
       end).

(** [InTx(ctx, client, fn)]. A nil [ctx] makes [ctx.Value] panic; [fn] is
    only ever called on a context made by [context.WithValue]. *)
Definition InTx (ctx : option Context) (client : DB) (fn : Context -> M error)
    : M error :=
  match ctx with
  | None => panic (PanicRuntime "invalid memory address or nil pointer dereference")
  | Some ctx =>
      match TxFromContext ctx with
      | None =>
          r <- BeginTx client ;;
          match r with
          | inl err => ret (Some err)
          | inr _tx => inTxWith ctx client fn true _tx
          end
      | Some tx => inTxWith ctx client fn false tx
      end
  end.

(** *** Units of work that call InTx again *)

(** A unit of work that records the context it is entered with and then
    returns, panics, goes on with a context derived from its own by a value
    under some key of another package, or calls [InTx] on its context with
    another such unit of work and goes on according to the error it gets
    back. *)
Inductive Work : Type :=
  | WReturn (result : error)
  | WPanic (v : PanicVal)
  | WWithValue (name : string) (val : string) (next : Work)
  | WInTx (inner : Work) (next : error -> Work).

Definition enter (ctx : Context) : M unit :=
  fun st => (Returned tt, record (EvEnter ctx) st).

Fixpoint runWork (client : DB) (w : Work) (ctx : Context) : M error :=
  match w with
  | WReturn result => ret result
  | WPanic v => panic v
  | WWithValue name val next =>
      runWork client next (WithValue ctx (otherKey name) (VOther val))
  | WInTx inner next =>
      err <- InTx (Some ctx) client
               (fun c => _ <- enter c ;; runWork client inner c) ;;
      runWork client (next err) ctx
  end.

Definition unitOfWork (client : DB) (w : Work) : Context -> M error :=
  fun ctx => _ <- enter ctx ;; runWork client w ctx.

(** A chain of [depth] nested calls around a last unit of work. *)
Fixpoint chain (depth : nat) (last : Work) : Work :=
  match depth with
  | O => last
  | S d => WInTx (chain d last) (fun err => WReturn err)
  end.






End Tx.

(** ** The calls of the descriptor, written out

    What [(w *Where) Where] adds to a recording builder, in the order of the
    specification: id equality, id inclusion, id exclusion, one bitmask
    condition per included flag, one per excluded flag, the soft-delete mode,
    the created range and the updated range. *)

Definition idCalls (w : Where) : list Bun.Call :=
  (if negb (String.eqb (ID w) "")
   then [Bun.CWhere "?TableAlias.? = ?" [Bun.Ident "id"; Bun.Str (ID w)]]
   else [])
  ++ (if nonEmptySlice (IDs w)
      then [Bun.CWhere "?TableAlias.? IN (?)" [Bun.Ident "id"; Bun.In (IDs w)]]
      else [])
  ++ (if nonEmptySlice (NotInIDs w)
      then [Bun.CWhere "?TableAlias.? NOT IN (?)"
              [Bun.Ident "id"; Bun.In (NotInIDs w)]]
      else []).

Definition hasFlagCall (flag : Z) : Bun.Call :=
  Bun.CWhere "?TableAlias.? & ? = ?" [Bun.Ident "flags"; Bun.Int flag; Bun.Int flag].

Definition hasNotFlagCall (flag : Z) : Bun.Call :=
  Bun.CWhere "?TableAlias.? & ? = 0" [Bun.Ident "flags"; Bun.Int flag].

Definition deletedCalls (w : Where) : list Bun.Call :=
  if OnlyDeleted w then [Bun.CWhereDeleted]
  else if WithDeleted w then [Bun.CWhereAllWithDeleted]
  else [].

Definition rangeCalls (col : string) (after before : option Z)
    : list Bun.Call :=
  match after with
  | Some t => [Bun.CWhere "?TableAlias.? >= ?" [Bun.Ident col; Bun.Time t]]
  | None => []
  end
  ++ match before with
     | Some t => [Bun.CWhere "?TableAlias.? <= ?" [Bun.Ident col; Bun.Time t]]
     | None => []
     end.

Definition whereCalls (w : Where) : list Bun.Call :=
  idCalls w
  ++ List.map hasFlagCall (HasFlags w)
  ++ List.map hasNotFlagCall (HasNotFlags w)
  ++ deletedCalls w
  ++ rangeCalls "created_at" (CreatedAfter w) (CreatedBefore w)
  ++ rangeCalls "updated_at" (UpdatedAfter w) (UpdatedBefore w).

(** The calls of [(w *Where) Select] before the ordering. *)
Definition projectionCalls (w : Where) : list Bun.Call :=
  (if nonEmptySlice (SelectColumns w) then [Bun.CColumn (SelectColumns w)] else [])
  ++ (if nonEmptySlice (ExcludeColumns w)
      then [Bun.CExcludeColumn (ExcludeColumns w)] else [])
  ++ match Limit w with Some n => [Bun.CLimit n] | None => [] end
  ++ match Offset w with Some n => [Bun.COffset n] | None => [] end.

Definition isDeletedMode (c : Bun.Call) : bool :=
  match c with
  | Bun.CWhereDeleted | Bun.CWhereAllWithDeleted => true
  | _ => false
  end.

Definition defaultColumns : list string :=
  [DefaultIDCol; DefaultFlagsCol; DefaultCreatedAtCol; DefaultUpdatedAtCol].

(** The descriptor [w] with the three column fields assigned. *)
Definition setColumns (flagsCol createdAtCol updatedAtCol : string) (w : Where)
    : Where :=
  setFlagsCol flagsCol
    (setCreatedAtCol createdAtCol (setUpdatedAtCol updatedAtCol w)).

(** The ordering call for a resolved sort column. *)
Definition orderCalls (w : Where) : list Bun.Call :=
  match Order w !! SortBy w with
  | Some col =>
      [Bun.COrder [if SortDesc w then col +:+ " desc" else col +:+ " asc"]]
  | None => []
  end.

(** ** The database of the tests

    The mock driver of the tests: beginning, committing and rolling back
    always succeed. [failingRollbackDB] differs in that every rollback
    fails. *)
Definition mockDB : Tx.DB :=
  Tx.mkDB (fun _ => None) (fun _ _ => None) (fun _ _ => None).

Definition failingRollbackDB : Tx.DB :=
  Tx.mkDB (fun _ => None) (fun _ _ => None)
    (fun _ _ => Some (Tx.errorString "connection lost")).

Definition initialState : Tx.State := Tx.mkState [] 0%nat.

(** A unit of work that records its context and returns nil. *)
Definition noteContext : Tx.Context -> Tx.M Tx.error :=
  fun ctx => Tx.bind (Tx.enter ctx) (fun _ => Tx.ret None).

(** ** Further selector factories (selectors.go) *)

Section MoreSelectors.
Context {Q : Type} `{BQ : Bun.SelectQuery Q}.

Definition WhereJsonbEqual (col field : string) (value : Bun.Arg)
    : Selector Q :=
  Some (fun q =>
    Bun.Where "?TableAlias.?->>? = ?" [Bun.Ident col; Bun.Str field; value] q).

Definition WhereJsonbObjectsArrayKeyValueEqual (col key field : string)
    (value : Bun.Arg) : Selector Q :=
  Some (fun q =>
    Bun.Where
      "?TableAlias.? -> ? @> jsonb_build_array(jsonb_build_object(?::text, ?::text))"
      [Bun.Ident col; Bun.Str key; Bun.Str field; value] q).

Definition WhereJsonbPathObjectsArrayKeyValueEqual (col : string)
    (path : list string) (field : string) (value : Bun.Arg) : Selector Q :=
  Some (fun q =>
    Bun.Where
      (Jsonb.jsonbPathExpression path false
       +:+ " @> jsonb_build_array(jsonb_build_object(?::text, ?::text))")
      [Bun.Ident col; Bun.Str field; value] q).

(** [fmt.Sprintf("%s, id", col)]: the column goes into the query text. *)
Definition WhereDistinctOn (col : string) : Selector Q :=
  Some (fun q => Bun.OrderExpr (col +:+ ", id") [] (Bun.DistinctOn col [] q)).

Definition WhereContains (col substr : string) : Selector Q :=
  Some (fun q =>
    Bun.Where "?TableAlias.? ILIKE ?"
      [Bun.Ident col; Bun.Str ("%" +:+ substr +:+ "%")] q).

Definition WhereBegins (col substr : string) : Selector Q :=
  Some (fun q =>
    Bun.Where "?TableAlias.? ILIKE ?"
      [Bun.Ident col; Bun.Str (substr +:+ "%")] q).

Definition WhereEnds (col substr : string) : Selector Q :=
  Some (fun q =>
    Bun.Where "?TableAlias.? ILIKE ?"
      [Bun.Ident col; Bun.Str ("%" +:+ substr)] q).

(** The [time.Time] argument is given by its milliseconds. *)
Definition WhereBefore (col : string) (t : Z) : Selector Q :=
  Some (fun q => Bun.Where "?TableAlias.? <= ?" [Bun.Ident col; Bun.Time t] q).

Definition WhereAfter (col : string) (t : Z) : Selector Q :=
  Some (fun q => Bun.Where "?TableAlias.? >= ?" [Bun.Ident col; Bun.Time t] q).

End MoreSelectors.

(** ** Error classification (errors.go) *)

Module Errors.

(** [strings.HasPrefix(s, prefix)] and [strings.Contains(s, substr)]. *)
Fixpoint hasPrefix (s prefix : string) : bool :=
  match prefix, s with
  | EmptyString, _ => true
  | String _ _, EmptyString => false
  | String p prefix', String c s' => Ascii.eqb c p && hasPrefix s' prefix'
  end.

Fixpoint contains (s substr : string) : bool :=
  hasPrefix s substr
  || match s with
     | EmptyString => false
     | String _ s' => contains s' substr
     end.

(** [sql.ErrNoRows]. *)
Definition ErrNoRows : Tx.GoError :=
  Tx.errorString "sql: no rows in result set".

Definition constraintMessage : string :=
  "duplicate key value violates unique constraint".

(** [IsConstraintError(err)]; [err.Error()] on the nil interface panics. *)
Definition IsConstraintError (err : Tx.error) : Tx.Outcome bool :=
  match err with
  | None =>
      Tx.Panicked
        (Tx.PanicRuntime "invalid memory address or nil pointer dereference")
  | Some e => Tx.Returned (contains (Tx.Error e) constraintMessage)
  end.

(** [IsNotFoundError(err)]; [errors.Is(nil, target)] is false for a non-nil
    target. *)
Definition IsNotFoundError (err : Tx.error) : bool :=
  match err with
  | None => false
  | Some e => Tx.errors_Is e ErrNoRows
  end.

End Errors.

(** ** The querier (querier.go) *)

Module Querier.

(** The handle a statement is created from: the database of the querier or
    a transaction. *)
Inductive Conn : Type :=
  | OnDB (db : Tx.DB)
  | OnTx (tx : Tx.TxPtr).

Inductive Kind : Type := KSelect | KInsert | KUpdate | KDelete.

(** A new statement builder: its kind and the handle it is bound to. *)
Record Stmt : Type := mkStmt { kind : Kind; conn : Conn }.

(** [type querier struct { db *bun.DB }]. *)
Record querier : Type := mkQuerier { db : Tx.DB }.

Definition NewQuerier (c : Tx.DB) : querier := mkQuerier c.

Definition NewSelectQuery (r : querier) (ctx : Tx.Context) : Stmt :=
  match Tx.TxFromContext ctx with
  | Some tx => mkStmt KSelect (OnTx tx)
  | None => mkStmt KSelect (OnDB (db r))
  end.

Definition NewInsertQuery (r : querier) (ctx : Tx.Context) : Stmt :=
  match Tx.TxFromContext ctx with
  | Some tx => mkStmt KInsert (OnTx tx)
  | None => mkStmt KInsert (OnDB (db r))
  end.

Definition NewUpdateQuery (r : querier) (ctx : Tx.Context) : Stmt :=
  match Tx.TxFromContext ctx with
  | Some tx => mkStmt KUpdate (OnTx tx)
  | None => mkStmt KUpdate (OnDB (db r))
  end.

Definition NewDeleteQuery (r : querier) (ctx : Tx.Context) : Stmt :=
  match Tx.TxFromContext ctx with
  | Some tx => mkStmt KDelete (OnTx tx)
  | None => mkStmt KDelete (OnDB (db r))
  end.

(** The four statements a unit of work can ask the querier for. *)
Definition statements (r : querier) (ctx : Tx.Context) : list Stmt :=
  [NewSelectQuery r ctx; NewInsertQuery r ctx; NewUpdateQuery r ctx;
   NewDeleteQuery r ctx].

End Querier.

(** ** Reading the string literals of a query text

    The way SQL reads single-quoted literals: a quote opens a literal; inside
    it two quotes in a row stand for one quote character and a single quote
    closes it. [literals] gives the contents of the literals of a text in
    order, and nothing when a literal is left open. *)

Module SqlLiteral.

Inductive Mode : Type :=
  | Outside
  | Inside (acc : string)
  | Closing (acc : string).

Definition step (st : Mode * list string) (c : ascii) : Mode * list string :=
  match st with
  | (Outside, out) =>
      if Ascii.eqb c "'"%char then (Inside "", out) else (Outside, out)
  | (Inside acc, out) =>
      if Ascii.eqb c "'"%char then (Closing acc, out)
      else (Inside (acc +:+ String c ""), out)
  | (Closing acc, out) =>
      if Ascii.eqb c "'"%char then (Inside (acc +:+ "'"), out)
      else (Outside, out ++ [acc])
  end.

Fixpoint run (s : string) (st : Mode * list string) : Mode * list string :=
  match s with
  | EmptyString => st
  | String c rest => run rest (step st c)
  end.

(** The literals read so far, counting one that is just being closed. *)
Definition flush (st : Mode * list string) : option (list string) :=
  match st with
  | (Outside, out) => Some out
  | (Closing acc, out) => Some (out ++ [acc])
  | (Inside _, _) => None
  end.

Definition literals (s : string) : option (list string) :=
  flush (run s (Outside, [])).

End SqlLiteral.

(** The calls of [Where] that test a bit of the flags column. *)
Definition isBitmask (c : Bun.Call) : bool :=
  match c with
  | Bun.CWhere query _ =>
      String.eqb query "?TableAlias.? & ? = ?"
      || String.eqb query "?TableAlias.? & ? = 0"
  | _ => false
  end.

(** The three column fields are set. *)
Definition columnsSet (w : Where) : bool :=
  negb (String.eqb (FlagsCol w) "")
  && negb (String.eqb (CreatedAtCol w) "")
  && negb (String.eqb (UpdatedAtCol w) "").

(** A database on which no transaction can be begun. *)
Definition failingBeginDB : Tx.DB :=
  Tx.mkDB (fun _ => Some (Tx.errorString "connection refused"))
    (fun _ _ => None) (fun _ _ => None).

(** A database on which every commit fails. *)
Definition failingCommitDB : Tx.DB :=
  Tx.mkDB (fun _ => None)
    (fun _ _ => Some (Tx.errorString "commit failed")) (fun _ _ => None).

(** The calls of [Where] that test membership in a list of ids. *)
Definition isInclusion (c : Bun.Call) : bool :=
  match c with
  | Bun.CWhere query _ => String.eqb query "?TableAlias.? IN (?)"
  | _ => false
  end.

(** * Properties *)

(** ** JSONB path expressions *)

(** *** The examples of the test table *)

Example jsonb_single_text :
  Jsonb.jsonbPathExpression ["user"] true = "?TableAlias.? ->> 'user'".
Proof. reflexivity. Qed.

Example jsonb_multi_text :
  Jsonb.jsonbPathExpression ["user"; "profile"; "name"] true
  = "?TableAlias.? -> 'user' -> 'profile' ->> 'name'".
Proof. reflexivity. Qed.

Example jsonb_multi_object :
  Jsonb.jsonbPathExpression ["user"; "profile"] false
  = "?TableAlias.? -> 'user' -> 'profile'".
Proof. reflexivity. Qed.

Example jsonb_inner_empty :
  Jsonb.jsonbPathExpression ["user"; ""; "name"] true
  = "?TableAlias.? -> 'user' ->> 'name'".
Proof. reflexivity. Qed.

Example escape_quotes :
  Jsonb.escapeJsonPathSegment "it's user's" = "it''s user''s".
Proof. reflexivity. Qed.

(** *** The loop against the specification's reading *)

Section JsonbLoop.
Import Jsonb.

Lemma nonEmptySegments_cons (s : string) (rest : list string) :
  nonEmptySegments (s :: rest)
  = if String.eqb s "" then nonEmptySegments rest
    else s :: nonEmptySegments rest.
Proof. unfold nonEmptySegments; simpl. destruct (String.eqb s ""); reflexivity. Qed.

Lemma emitSegments_cons (wantText : bool) (s : string) (rest : list string)
    (expr : string) :
  rest <> [] ->
  emitSegments wantText (s :: rest) expr
  = emitSegments wantText rest (expr +:+ sprintf_op "->" (escapeJsonPathSegment s)).
Proof. destruct rest as [|r rest]; [congruence | reflexivity]. Qed.

(** A path whose segments are all empty has no segment to emit. *)
Lemma nonEmptySegments_nil_last (rest : list string) :
  nonEmptySegments rest = [] -> String.eqb (List.last rest "") "" = true.
Proof.
  induction rest as [|s rest IH]; [reflexivity|].
  rewrite nonEmptySegments_cons.
  destruct (String.eqb s "") eqn:Hs; [|discriminate].
  intros H. destruct rest as [|r rest]; [exact Hs | exact (IH H)].
Qed.

(** What the loop computes: the non-empty segments in order, and the
    text-extraction operator only when the segment at the last index is
    itself non-empty. *)
Lemma jsonbPathLoop_emit (len : Z) (text : bool) (rest : list string) :
  forall (idx : Z) (expr : string),
    (idx + Z.of_nat (length rest) = len)%Z ->
    jsonbPathLoop len text idx rest expr
    = emitSegments (text && negb (String.eqb (List.last rest "") ""))
        (nonEmptySegments rest) expr.
Proof.
  induction rest as [|s rest IH]; intros idx expr Hlen.
  - reflexivity.
  - cbn [jsonbPathLoop]. rewrite nonEmptySegments_cons.
    destruct (String.eqb s "") eqn:Hs.
    + destruct rest as [|r rest].
      * reflexivity.
      * rewrite IH by (cbn [length] in *; lia). reflexivity.
    + destruct rest as [|r rest].
      * cbn [length] in Hlen.
        replace (Z.eqb idx (len - 1)) with true by (symmetry; apply Z.eqb_eq; lia).
        cbn [List.last nonEmptySegments emitSegments]. rewrite Hs.
        destruct text; reflexivity.
      * replace (Z.eqb idx (len - 1)) with false
          by (symmetry; apply Z.eqb_neq; cbn [length] in Hlen; lia).
        rewrite andb_false_r.
        rewrite IH by (cbn [length] in *; lia).
        change (List.last (s :: r :: rest) "") with (List.last (r :: rest) "").
        destruct (nonEmptySegments (r :: rest)) as [|t ts] eqn:Hne.
        -- rewrite (nonEmptySegments_nil_last _ Hne).
           rewrite andb_false_r. reflexivity.
        -- rewrite (emitSegments_cons _ s (t :: ts)) by done. reflexivity.
Qed.

Lemma jsonbPathExpression_emit (path : list string) (text : bool) :
  jsonbPathExpression path text
  = emitSegments (text && negb (String.eqb (List.last path "") ""))
      (nonEmptySegments path) "?TableAlias.?".
Proof. unfold jsonbPathExpression. apply jsonbPathLoop_emit. lia. Qed.

(** Without text extraction the code is the specification's reading. *)
Lemma jsonbPathExpression_object (path : list string) :
  jsonbPathExpression path false = jsonbPathExpression_spec path false.
Proof. rewrite jsonbPathExpression_emit. reflexivity. Qed.

(** With text extraction the two agree whenever the path does not end in an
    empty segment. *)
Lemma jsonbPathExpression_text_last_nonempty (path : list string) :
  String.eqb (List.last path "") "" = false ->
  jsonbPathExpression path true = jsonbPathExpression_spec path true.
Proof. intros H. rewrite jsonbPathExpression_emit, H. reflexivity. Qed.

(** A path of only empty segments leaves the root expression unchanged. *)
Lemma jsonbPathExpression_all_empty (path : list string) (text : bool) :
  Forall (fun s => s = "") path ->
  jsonbPathExpression path text = "?TableAlias.?".
Proof.
  intros H. rewrite jsonbPathExpression_emit.
  replace (nonEmptySegments path) with (@nil string); [reflexivity|].
  symmetry. induction H as [|s rest Hs _ IH]; [reflexivity|].
  rewrite nonEmptySegments_cons, Hs. exact IH.
Qed.

End JsonbLoop.

(** C2, at a path that ends in an empty segment: the code tests the index of
    the segment against the last index of the path, so the last non-empty
    segment ["a"] is emitted with the object-extraction operator, where the
    specification's reading gives it the text-extraction operator. *)
Theorem jsonbPathExpression_trailing_empty :
  Jsonb.jsonbPathExpression ["a"; ""] true = "?TableAlias.? -> 'a'"
  /\ Jsonb.jsonbPathExpression_spec ["a"; ""] true = "?TableAlias.? ->> 'a'"
  /\ Jsonb.jsonbPathExpression ["a"; ""] true
     <> Jsonb.jsonbPathExpression_spec ["a"; ""] true.
Proof. repeat split; try reflexivity. discriminate. Qed.

(** ** Combinators *)

Section SelectorFacts.
Context {Q : Type} `{BQ : Bun.SelectQuery Q}.

Lemma applyLoop_sequential (selectors : list (Selector Q)) :
  forall q, applyLoop selectors q = applySequentially (nonNil selectors) q.
Proof.
  induction selectors as [|[f|] rest IH]; intros q; cbn.
  - reflexivity.
  - apply IH.
  - apply IH.
Qed.

Lemma applyLoop_app (xs ys : list (Selector Q)) (q : Q) :
  applyLoop (xs ++ ys) q = applyLoop ys (applyLoop xs q).
Proof.
  revert q. induction xs as [|[f|] xs IH]; intros q; cbn; auto.
Qed.

Lemma MapFrom_map {A B : Type} (g : A -> B) (collection : list A) :
  forall idx, MapFrom idx collection (fun item _ => g item) = List.map g collection.
Proof.
  induction collection as [|item rest IH]; intros idx; cbn.
  - reflexivity.
  - f_equal. apply IH.
Qed.

(** C7: the selector that [Apply] returns is never nil and transforms a query
    as applying the non-nil members one after the other in argument order
    does; [ApplyIf false] is the nil selector and [ApplyIf true] is [Apply]. *)
Theorem Apply_sequential_and_ApplyIf (P : list (Selector Q)) :
  (exists f, Apply P = Some f
             /\ forall q, f q = applySequentially (nonNil P) q)
  /\ ApplyIf false P = None
  /\ ApplyIf true P = Apply P
  /\ (forall q, runSelector (ApplyIf true P) q = runSelector (Apply P) q).
Proof.
  repeat split.
  exists (fun q => applyLoop P q). split; [reflexivity|].
  apply applyLoop_sequential.
Qed.

(** C8: [Or] is [AndGroup] of the list that holds, for each predicate and in
    the same order, the [OrGroup] of that predicate alone. *)
Theorem Or_AndGroup_of_single_OrGroups (predicates : list (Selector Q)) :
  Or predicates = AndGroup (List.map (fun p => OrGroup [p]) predicates)
  /\ forall q,
       runSelector (Or predicates) q
       = runSelector (AndGroup (List.map (fun p => OrGroup [p]) predicates)) q.
Proof.
  assert (E : Or predicates
              = AndGroup (List.map (fun p => OrGroup [p]) predicates)).
  { unfold Or, Map. rewrite (MapFrom_map (fun p => OrGroup [p])). reflexivity. }
  split; [exact E|]. intros q. rewrite E. reflexivity.
Qed.

End SelectorFacts.

(** Nil members are skipped and the others run in argument order. *)
Example Apply_skips_nil :
  runSelector
    (Apply [WhereEqual "name" (Bun.Str "test"); None; WhereNotNull "id"])
    ([] : Bun.Log)
  = [Bun.CWhere "?TableAlias.? = ?" [Bun.Ident "name"; Bun.Str "test"];
     Bun.CWhere "?TableAlias.? is not null" [Bun.Ident "id"]].
Proof. reflexivity. Qed.

Example Or_two_predicates :
  runSelector
    (Or [WhereEqual "role" (Bun.Str "admin"); WhereNull "email"])
    ([] : Bun.Log)
  = [Bun.CWhereGroup " AND "
       [Bun.CWhereGroup " OR "
          [Bun.CWhere "?TableAlias.? = ?" [Bun.Ident "role"; Bun.Str "admin"]];
        Bun.CWhereGroup " OR "
          [Bun.CWhere "?TableAlias.? is null" [Bun.Ident "email"]]]].
Proof. reflexivity. Qed.

(** ** The filter descriptor *)

Section DescriptorFacts.
Context {Q : Type} `{BQ : Bun.SelectQuery Q}.

(** The conditions never read the three column fields. *)
Lemma whereConditions_setFlagsCol (v : string) (w : Where) (q : Q) :
  whereConditions (setFlagsCol v w) q = whereConditions w q.
Proof. reflexivity. Qed.

Lemma whereConditions_setCreatedAtCol (v : string) (w : Where) (q : Q) :
  whereConditions (setCreatedAtCol v w) q = whereConditions w q.
Proof. reflexivity. Qed.

Lemma whereConditions_setUpdatedAtCol (v : string) (w : Where) (q : Q) :
  whereConditions (setUpdatedAtCol v w) q = whereConditions w q.
Proof. reflexivity. Qed.

Lemma whereConditions_injectDefaults (w : Where) (q : Q) :
  whereConditions (injectDefaults w) q = whereConditions w q.
Proof.
  unfold injectDefaults.
  repeat match goal with
         | |- context [if ?b then _ else _] => destruct b
         end;
    rewrite ?whereConditions_setUpdatedAtCol, ?whereConditions_setCreatedAtCol,
      ?whereConditions_setFlagsCol; reflexivity.
Qed.

Lemma Where_Where_query (w : Where) (q : Q) :
  snd (Where_Where (Some w) q) = whereConditions w q.
Proof. cbn [Where_Where snd]. apply whereConditions_injectDefaults. Qed.

End DescriptorFacts.

Lemma fold_left_record {A : Type} (f : A -> Bun.Call) (l : list A) :
  forall q : Bun.Log,
    fold_left (fun q x => q ++ [f x]) l q = q ++ List.map f l.
Proof.
  induction l as [|x l IH]; intros q; cbn.
  - symmetry. apply app_nil_r.
  - rewrite IH, <- app_assoc. reflexivity.
Qed.

Lemma if_record {A : Type} (b : bool) (q c : list A) :
  (if b then q ++ c else q) = q ++ (if b then c else []).
Proof. destruct b; [reflexivity | symmetry; apply app_nil_r]. Qed.

Lemma if_record_either {A : Type} (b : bool) (q c d : list A) :
  (if b then q ++ c else q ++ d) = q ++ (if b then c else d).
Proof. destruct b; reflexivity. Qed.

Lemma option_record {A B : Type} (o : option A) (f : A -> B) (q : list B) :
  match o with Some t => q ++ [f t] | None => q end
  = q ++ match o with Some t => [f t] | None => [] end.
Proof. destruct o; [reflexivity | symmetry; apply app_nil_r]. Qed.

(** On a recording builder the method appends exactly [whereCalls]. *)
Lemma whereConditions_log (w : Where) (q : Bun.Log) :
  whereConditions w q = q ++ whereCalls w.
Proof.
  unfold whereConditions, whereCalls, idCalls, deletedCalls, rangeCalls.
  cbn [Bun.Where Bun.WhereDeleted Bun.WhereAllWithDeleted Bun.LogQuery].
  cbv zeta.
  rewrite !fold_left_record.
  rewrite !if_record.
  rewrite (option_record (CreatedAfter w)
             (fun t => Bun.CWhere "?TableAlias.? >= ?"
                         [Bun.Ident DefaultCreatedAtCol; Bun.Time t])).
  rewrite (option_record (CreatedBefore w)
             (fun t => Bun.CWhere "?TableAlias.? <= ?"
                         [Bun.Ident DefaultCreatedAtCol; Bun.Time t])).
  rewrite (option_record (UpdatedAfter w)
             (fun t => Bun.CWhere "?TableAlias.? >= ?"
                         [Bun.Ident DefaultUpdatedAtCol; Bun.Time t])).
  rewrite (option_record (UpdatedBefore w)
             (fun t => Bun.CWhere "?TableAlias.? <= ?"
                         [Bun.Ident DefaultUpdatedAtCol; Bun.Time t])).
  rewrite if_record_either.
  rewrite <- !app_assoc. reflexivity.
Qed.

Lemma Where_Where_log (w : Where) (q : Bun.Log) :
  snd (Where_Where (Some w) q) = q ++ whereCalls w.
Proof. rewrite Where_Where_query. apply whereConditions_log. Qed.

Lemma whereCalls_setColumns (fc cc uc : string) (w : Where) :
  whereCalls (setColumns fc cc uc w) = whereCalls w.
Proof. reflexivity. Qed.

Lemma rangeCalls_idents (col : string) (after before : option Z) :
  Forall (fun c => Forall (fun name => name = col) (Bun.identsOf c))
    (rangeCalls col after before).
Proof.
  unfold rangeCalls. destruct after, before; cbn; repeat constructor.
Qed.

Lemma Forall_map_all {A B : Type} (P : B -> Prop) (f : A -> B) (l : list A) :
  (forall x, P (f x)) -> Forall P (List.map f l).
Proof.
  intros Hf. induction l as [|x l IH]; cbn; constructor; auto.
Qed.

Ltac forall_idents :=
  cbn; repeat first [assumption | apply List.Forall_nil | apply List.Forall_cons].

Lemma whereCalls_idents (w : Where) :
  Forall (fun c => Forall (fun name => name ∈ defaultColumns) (Bun.identsOf c))
    (whereCalls w).
Proof.
  assert (Hid : "id" ∈ defaultColumns) by (repeat constructor).
  assert (Hfl : "flags" ∈ defaultColumns) by (repeat constructor).
  assert (Hcr : "created_at" ∈ defaultColumns) by (repeat constructor).
  assert (Hup : "updated_at" ∈ defaultColumns) by (repeat constructor).
  unfold whereCalls. rewrite !Forall_app. repeat split.
  - unfold idCalls.
    destruct (negb (String.eqb (ID w) "")), (nonEmptySlice (IDs w)),
      (nonEmptySlice (NotInIDs w)); forall_idents.
  - apply Forall_map_all. intros flag. forall_idents.
  - apply Forall_map_all. intros flag. forall_idents.
  - unfold deletedCalls. destruct (OnlyDeleted w), (WithDeleted w);
      forall_idents.
  - eapply Forall_impl; [apply rangeCalls_idents|].
    intros c Hc. eapply Forall_impl; [exact Hc|]. cbn. intros ? ->. exact Hcr.
  - eapply Forall_impl; [apply rangeCalls_idents|].
    intros c Hc. eapply Forall_impl; [exact Hc|]. cbn. intros ? ->. exact Hup.
Qed.

Lemma injectDefaults_setColumns (fc cc uc : string) (w : Where) :
  injectDefaults (setColumns fc cc uc w)
  = setColumns (if String.eqb fc "" then DefaultFlagsCol else fc)
      (if String.eqb cc "" then DefaultCreatedAtCol else cc)
      (if String.eqb uc "" then DefaultUpdatedAtCol else uc) w.
Proof.
  unfold injectDefaults. cbv zeta.
  change (FlagsCol (setColumns fc cc uc w)) with fc.
  destruct (String.eqb fc "");
    match goal with
    | |- context [String.eqb (CreatedAtCol ?x) ""] =>
        change (CreatedAtCol x) with cc
    end;
    destruct (String.eqb cc "");
    match goal with
    | |- context [String.eqb (UpdatedAtCol ?x) ""] =>
        change (UpdatedAtCol x) with uc
    end;
    destruct (String.eqb uc ""); reflexivity.
Qed.

(** C5: whatever the column fields of the descriptor hold, the query that
    [Where] returns is the one it returns for blank fields; on a recording
    builder the added calls are [whereCalls], whose identifiers are the
    default column names only; the fields themselves are kept when set and
    overwritten with the defaults when blank. *)
Theorem Where_conditions_use_default_columns
    (w : Where) (flagsCol createdAtCol updatedAtCol : string) :
  (forall (Q : Type) (BQ : Bun.SelectQuery Q) (q : Q),
     snd (Where_Where (Some (setColumns flagsCol createdAtCol updatedAtCol w)) q)
     = snd (Where_Where (Some (setColumns "" "" "" w)) q))
  /\ (forall q : Bun.Log,
        snd (Where_Where (Some (setColumns flagsCol createdAtCol updatedAtCol w)) q)
        = q ++ whereCalls w)
  /\ Forall (fun c => Forall (fun name => name ∈ defaultColumns) (Bun.identsOf c))
       (whereCalls w)
  /\ (forall (Q : Type) (BQ : Bun.SelectQuery Q) (q : Q),
        fst (Where_Where (Some (setColumns flagsCol createdAtCol updatedAtCol w)) q)
        = Some (setColumns
                  (if String.eqb flagsCol "" then "flags" else flagsCol)
                  (if String.eqb createdAtCol "" then "created_at" else createdAtCol)
                  (if String.eqb updatedAtCol "" then "updated_at" else updatedAtCol)
                  w)).
Proof.
  split; [|split; [|split]].
  - intros Q BQ q. rewrite !Where_Where_query. reflexivity.
  - intros q. rewrite Where_Where_log. reflexivity.
  - apply whereCalls_idents.
  - intros Q BQ q. cbn [Where_Where fst].
    rewrite injectDefaults_setColumns. reflexivity.
Qed.

(** The descriptor of the test "with custom column names". *)
Example Where_custom_columns :
  snd (Where_Where
         (Some (setColumns "custom_flags" "custom_created" "custom_updated"
                  (mkWhere "" [] [] [1%Z] [] false false None None "" "" ""
                     (Some 5%Z) None None None [] [] 0 false ∅)))
         ([] : Bun.Log))
  = [Bun.CWhere "?TableAlias.? & ? = ?" [Bun.Ident "flags"; Bun.Int 1; Bun.Int 1];
     Bun.CWhere "?TableAlias.? >= ?" [Bun.Ident "created_at"; Bun.Time 5]].
Proof. reflexivity. Qed.

Lemma filter_isDeletedMode_map (f : Z -> Bun.Call) (l : list Z) :
  (forall x, isDeletedMode (f x) = false) ->
  List.filter isDeletedMode (List.map f l) = [].
Proof.
  intros Hf. induction l as [|x l IH]; cbn; [reflexivity|].
  rewrite Hf. exact IH.
Qed.

Lemma filter_isDeletedMode_whereCalls (w : Where) :
  List.filter isDeletedMode (whereCalls w) = deletedCalls w.
Proof.
  unfold whereCalls. rewrite !List.filter_app.
  rewrite !filter_isDeletedMode_map by reflexivity.
  assert (Hid : List.filter isDeletedMode (idCalls w) = []).
  { unfold idCalls.
    destruct (negb (String.eqb (ID w) "")), (nonEmptySlice (IDs w)),
      (nonEmptySlice (NotInIDs w)); reflexivity. }
  assert (Hr : forall col a b,
             List.filter isDeletedMode (rangeCalls col a b) = []).
  { intros col [?|] [?|]; reflexivity. }
  rewrite Hid, !Hr. cbn [app]. rewrite app_nil_r.
  unfold deletedCalls. destruct (OnlyDeleted w), (WithDeleted w); reflexivity.
Qed.

(** C10: with both [OnlyDeleted] and [WithDeleted] set, the only soft-delete
    call that [Where] makes is the only-deleted one, and the query is the one
    obtained with [WithDeleted] unset. *)
Theorem Where_only_deleted_takes_precedence (w : Where) :
  OnlyDeleted w = true ->
  WithDeleted w = true ->
  (forall q : Bun.Log,
     exists added,
       snd (Where_Where (Some w) q) = q ++ added
       /\ List.filter isDeletedMode added = [Bun.CWhereDeleted])
  /\ (forall (Q : Type) (BQ : Bun.SelectQuery Q) (q : Q),
        snd (Where_Where (Some w) q)
        = snd (Where_Where (Some (setWithDeleted false w)) q)).
Proof.
  intros Honly Hwith. split.
  - intros q. exists (whereCalls w). split; [apply Where_Where_log|].
    rewrite filter_isDeletedMode_whereCalls. unfold deletedCalls.
    rewrite Honly. reflexivity.
  - intros Q BQ q. rewrite !Where_Where_query.
    unfold whereConditions. cbn [setWithDeleted ID IDs NotInIDs HasFlags
      HasNotFlags OnlyDeleted WithDeleted CreatedAfter CreatedBefore
      UpdatedAfter UpdatedBefore].
    rewrite Honly. reflexivity.
Qed.

Lemma Where_only_deleted_takes_precedence_witness :
  let w := mkWhere "" [] [] [] [] true true None None "" "" ""
             None None None None [] [] 0 false ∅ in
  OnlyDeleted w = true /\ WithDeleted w = true
  /\ (forall q : Bun.Log,
        exists added,
          snd (Where_Where (Some w) q) = q ++ added
          /\ List.filter isDeletedMode added = [Bun.CWhereDeleted])
  /\ (forall (Q : Type) (BQ : Bun.SelectQuery Q) (q : Q),
        snd (Where_Where (Some w) q)
        = snd (Where_Where (Some (setWithDeleted false w)) q)).
Proof.
  intros w. split; [reflexivity|]. split; [reflexivity|].
  apply (Where_only_deleted_takes_precedence w); reflexivity.
Defined.

Example Where_both_deleted_flags :
  snd (Where_Where
         (Some (mkWhere "" [] [] [] [] true true None None "" "" ""
                  None None None None [] [] 0 false ∅))
         ([] : Bun.Log))
  = [Bun.CWhereDeleted].
Proof. reflexivity. Qed.

Lemma filter_isOrder_projectionCalls (w : Where) :
  List.filter Bun.isOrder (projectionCalls w) = [].
Proof.
  unfold projectionCalls.
  destruct (nonEmptySlice (SelectColumns w)), (nonEmptySlice (ExcludeColumns w)),
    (Limit w), (Offset w); reflexivity.
Qed.

Lemma Where_Select_log (w : Where) (q : Bun.Log) :
  Where_Select (Some w) q = q ++ projectionCalls w ++ orderCalls w.
Proof.
  unfold Where_Select, projectionCalls, orderCalls, OrderAsc, OrderDesc.
  cbn [Bun.Column Bun.ExcludeColumn Bun.Limit Bun.Offset Bun.Order Bun.LogQuery].
  destruct (nonEmptySlice (SelectColumns w)), (nonEmptySlice (ExcludeColumns w)),
    (Limit w), (Offset w), (Order w !! SortBy w), (SortDesc w);
    cbn [app]; rewrite ?app_nil_r, <- ?app_assoc; cbn [app]; reflexivity.
Qed.

(** C9: [Select] returns the query with the projection, exclusion, limit and
    offset calls, none of which is an ordering, followed by one ordering call
    exactly when [SortBy] is a key of the order map, of the form
    ["<col> asc"] or ["<col> desc"] according to [SortDesc]; for a key that
    is absent nothing is added in its place. *)
Theorem Select_orders_only_resolved_key (w : Where) (q : Bun.Log) :
  Where_Select (Some w) q
  = q ++ projectionCalls w
      ++ match Order w !! SortBy w with
         | Some col =>
             [Bun.COrder [if SortDesc w then col +:+ " desc" else col +:+ " asc"]]
         | None => []
         end
  /\ List.filter Bun.isOrder (projectionCalls w) = []
  /\ List.filter Bun.isOrder
       (projectionCalls w
          ++ match Order w !! SortBy w with
             | Some col =>
                 [Bun.COrder
                    [if SortDesc w then col +:+ " desc" else col +:+ " asc"]]
             | None => []
             end)
     = match Order w !! SortBy w with
       | Some col =>
           [Bun.COrder [if SortDesc w then col +:+ " desc" else col +:+ " asc"]]
       | None => []
       end.
Proof.
  split; [apply Where_Select_log|]. split; [apply filter_isOrder_projectionCalls|].
  rewrite List.filter_app, filter_isOrder_projectionCalls.
  destruct (Order w !! SortBy w); reflexivity.
Qed.

(** The descriptors of the tests "with Order descending" and "with invalid
    SortBy". *)
Example Select_descending :
  Where_Select
    (Some (mkWhere "" [] [] [] [] false false (Some 10%Z) None "" "" ""
             None None None None [] [] 1 true
             (<[1%Z := "created_at"]> (<[2%Z := "name"]> ∅))))
    ([] : Bun.Log)
  = [Bun.CLimit 10; Bun.COrder ["created_at desc"]].
Proof. vm_compute. reflexivity. Qed.

Example Select_unresolved_key :
  Where_Select
    (Some (mkWhere "" [] [] [] [] false false (Some 10%Z) None "" "" ""
             None None None None [] [] 999 false
             (<[1%Z := "created_at"]> ∅)))
    ([] : Bun.Log)
  = [Bun.CLimit 10].
Proof. vm_compute. reflexivity. Qed.

(** ** Ambient transactions *)

Section TxFacts.
Import Tx.

Lemma TxFromContext_TxToContext (ctx : option Context) (tx : option TxPtr) :
  TxFromContext (TxToContext ctx tx) = tx.
Proof.
  unfold TxFromContext, TxToContext. cbn [Value].
  destruct (decide (TxKey = TxKey)); [reflexivity | congruence].
Qed.

Lemma Value_of_TxFromContext (ctx : Context) (tx : TxPtr) :
  TxFromContext ctx = Some tx -> Value ctx TxKey = Some (VTx (Some tx)).
Proof.
  unfold TxFromContext.
  destruct (Value ctx TxKey) as [[t|other]|]; congruence.
Qed.

(** Attaching the transaction that a context already carries changes the
    value of no key. *)
Lemma Value_reattach (ctx : Context) (tx : TxPtr) (key : Key) :
  TxFromContext ctx = Some tx ->
  Value (TxToContext (Some ctx) (Some tx)) key = Value ctx key.
Proof.
  intros H. unfold TxToContext. cbn [Value].
  destruct (decide (TxKey = key)) as [<-|]; [|reflexivity].
  symmetry. apply Value_of_TxFromContext. exact H.
Qed.


(** A frame whose context carries a transaction only calls [fn]. *)
Lemma InTx_nested (client : DB) (ctx : Context) (tx : TxPtr)
    (fn : Context -> M error) (st : State) :
  TxFromContext ctx = Some tx ->
  InTx (Some ctx) client fn st = fn (TxToContext (Some ctx) (Some tx)) st.
Proof. intros H. unfold InTx. rewrite H. reflexivity. Qed.

(** A frame whose context carries none begins one, when beginning works. *)
Lemma InTx_root (client : DB) (ctx : Context) (fn : Context -> M error)
    (st : State) :
  TxFromContext ctx = None ->
  beginErr client (events st) = None ->
  InTx (Some ctx) client fn st
  = inTxWith ctx client fn true (nextTx st)
      (mkState (events st ++ [EvBegin (nextTx st)]) (S (nextTx st))).
Proof.
  intros Hctx Hbegin. unfold InTx. rewrite Hctx.
  unfold bind, BeginTx. rewrite Hbegin. reflexivity.
Qed.

(** When beginning fails, the error is returned and [fn] is not called. *)
Lemma InTx_begin_fails (client : DB) (ctx : Context) (fn : Context -> M error)
    (st : State) (err : GoError) :
  TxFromContext ctx = None ->
  beginErr client (events st) = Some err ->
  InTx (Some ctx) client fn st
  = (Returned (Some err), record (EvBeginFailed err) st).
Proof.
  intros Hctx Hbegin. unfold InTx. rewrite Hctx.
  unfold bind, BeginTx. rewrite Hbegin. reflexivity.
Qed.

Lemma errors_Is_refl (e : GoError) : errors_Is e e = true.
Proof. destruct e; cbn; rewrite decide_True by reflexivity; reflexivity. Qed.

Lemma errors_Is_wrapped (msg : string) (e : GoError) :
  errors_Is (wrapError msg e) e = true.
Proof.
  cbn [errors_Is]. destruct (decide (wrapError msg e = e)); [reflexivity|].
  apply errors_Is_refl.
Qed.




End TxFacts.

Section TxClaims.
Import Tx.
Local Open Scope nat_scope.




(** The history of three frames, one inside the other. *)
Example InTx_three_frames :
  InTx (Some Background) mockDB
    (unitOfWork mockDB (chain 2 (WReturn None))) initialState
  = (Returned None,
     mkState
       [EvBegin 0;
        EvEnter (WithValue Background TxKey (VTx (Some 0%nat)));
        EvEnter (WithValue (WithValue Background TxKey (VTx (Some 0%nat)))
                   TxKey (VTx (Some 0%nat)));
        EvEnter (WithValue
                   (WithValue (WithValue Background TxKey (VTx (Some 0%nat)))
                      TxKey (VTx (Some 0%nat)))
                   TxKey (VTx (Some 0%nat)));
        EvCommit 0 None]
       1).
Proof. reflexivity. Qed.

(** C3: when the unit of work of a root frame panics, [InTx] rolls the
    transaction back and panics with the same value; it does not return. *)
Theorem InTx_root_panic_rolls_back_and_panics_again
    (client : DB) (ctx : Context) (fn : Context -> M error)
    (st st' : State) (v : PanicVal) :
  TxFromContext ctx = None ->
  beginErr client (events st) = None ->
  fn (TxToContext (Some ctx) (Some (nextTx st)))
     (mkState (events st ++ [EvBegin (nextTx st)]) (S (nextTx st)))
  = (Panicked v, st') ->
  InTx (Some ctx) client fn st
  = (Panicked v,
     record (EvRollback (nextTx st)
               (rollbackErr client (nextTx st) (events st'))) st').
Proof.
  intros Hctx Hbegin Hfn. rewrite InTx_root by assumption.
  unfold inTxWith. cbn [negb]. unfold deferRecover, bind at 1.
  rewrite Hfn. reflexivity.
Qed.

Lemma InTx_root_panic_rolls_back_and_panics_again_witness :
  TxFromContext Background = None
  /\ beginErr failingRollbackDB (events initialState) = None
  /\ unitOfWork failingRollbackDB (WPanic (PanicStr "test panic"))
       (TxToContext (Some Background) (Some (nextTx initialState)))
       (mkState (events initialState ++ [EvBegin (nextTx initialState)])
          (S (nextTx initialState)))
     = (Panicked (PanicStr "test panic"),
        mkState [EvBegin 0;
                 EvEnter (WithValue Background TxKey (VTx (Some 0%nat)))] 1)
  /\ InTx (Some Background) failingRollbackDB
       (unitOfWork failingRollbackDB (WPanic (PanicStr "test panic")))
       initialState
     = (Panicked (PanicStr "test panic"),
        record
          (EvRollback (nextTx initialState)
             (rollbackErr failingRollbackDB (nextTx initialState)
                (events
                   (mkState
                      [EvBegin 0;
                       EvEnter (WithValue Background TxKey (VTx (Some 0%nat)))]
                      1))))
          (mkState
             [EvBegin 0;
              EvEnter (WithValue Background TxKey (VTx (Some 0%nat)))] 1)).
Proof.
  split; [reflexivity|]. split; [reflexivity|]. split; [reflexivity|].
  apply (InTx_root_panic_rolls_back_and_panics_again failingRollbackDB
           Background
           (unitOfWork failingRollbackDB (WPanic (PanicStr "test panic")))
           initialState); reflexivity.
Defined.

(** C4: when the unit of work of a root frame returns an error, [InTx]
    rolls the transaction back; if the rollback succeeds it returns that
    error itself, and if the rollback fails it returns one error that wraps
    the original one, with a message naming both, from which [Unwrap] and
    [errors.Is] recover the original. *)
Theorem InTx_root_error_rolls_back
    (client : DB) (ctx : Context) (fn : Context -> M error)
    (st st' : State) (e : GoError) :
  TxFromContext ctx = None ->
  beginErr client (events st) = None ->
  fn (TxToContext (Some ctx) (Some (nextTx st)))
     (mkState (events st ++ [EvBegin (nextTx st)]) (S (nextTx st)))
  = (Returned (Some e), st') ->
  exists result,
    InTx (Some ctx) client fn st
    = (Returned (Some result),
       record (EvRollback (nextTx st)
                 (rollbackErr client (nextTx st) (events st'))) st')
    /\ match rollbackErr client (nextTx st) (events st') with
       | None => result = e
       | Some re =>
           result
           = wrapError
               (Error e +:+ ": transaction rollback error: " +:+ Error re) e
           /\ Unwrap result = Some e
           /\ errors_Is result e = true
       end.
Proof.
  intros Hctx Hbegin Hfn. rewrite InTx_root by assumption.
  unfold inTxWith. cbn [negb]. unfold deferRecover, bind at 1.
  rewrite Hfn. unfold bind, Rollback, ret.
  destruct (rollbackErr client (nextTx st) (events st')) as [re|] eqn:Hrb.
  - exists (Errorf_rollback e re). split; [reflexivity|].
    split; [reflexivity|]. split; [reflexivity|]. apply errors_Is_wrapped.
  - exists e. split; reflexivity.
Qed.

Lemma InTx_root_error_rolls_back_witness :
  TxFromContext Background = None
  /\ beginErr failingRollbackDB (events initialState) = None
  /\ unitOfWork failingRollbackDB (WReturn (Some (errorString "test error")))
       (TxToContext (Some Background) (Some (nextTx initialState)))
       (mkState (events initialState ++ [EvBegin (nextTx initialState)])
          (S (nextTx initialState)))
     = (Returned (Some (errorString "test error")),
        mkState [EvBegin 0;
                 EvEnter (WithValue Background TxKey (VTx (Some 0)))] 1)
  /\ exists result,
       InTx (Some Background) failingRollbackDB
         (unitOfWork failingRollbackDB
            (WReturn (Some (errorString "test error"))))
         initialState
       = (Returned (Some result),
          record
            (EvRollback (nextTx initialState)
               (rollbackErr failingRollbackDB (nextTx initialState)
                  (events
                     (mkState
                        [EvBegin 0;
                         EvEnter (WithValue Background TxKey (VTx (Some 0)))]
                        1))))
            (mkState
               [EvBegin 0;
                EvEnter (WithValue Background TxKey (VTx (Some 0)))] 1))
       /\ match rollbackErr failingRollbackDB (nextTx initialState)
                (events
                   (mkState
                      [EvBegin 0;
                       EvEnter (WithValue Background TxKey (VTx (Some 0)))]
                      1))
          with
          | None => result = errorString "test error"
          | Some re =>
              result
              = wrapError
                  (Error (errorString "test error")
                   +:+ ": transaction rollback error: " +:+ Error re)
                  (errorString "test error")
              /\ Unwrap result = Some (errorString "test error")
              /\ errors_Is result (errorString "test error") = true
          end.
Proof.
  split; [reflexivity|]. split; [reflexivity|]. split; [reflexivity|].
  apply (InTx_root_error_rolls_back failingRollbackDB Background
           (unitOfWork failingRollbackDB
              (WReturn (Some (errorString "test error"))))
           initialState); reflexivity.
Defined.

(** Both errors in one: the history and the returned error when the rollback
    fails. *)
Example InTx_error_rollback_fails :
  InTx (Some Background) failingRollbackDB
    (unitOfWork failingRollbackDB (WReturn (Some (errorString "test error"))))
    initialState
  = (Returned
       (Some (wrapError
                "test error: transaction rollback error: connection lost"
                (errorString "test error"))),
     mkState
       [EvBegin 0;
        EvEnter (WithValue Background TxKey (VTx (Some 0)));
        EvRollback 0 (Some (errorString "connection lost"))] 1).
Proof. reflexivity. Qed.

(** The rollback succeeds: the error of the unit of work comes back as it
    is. *)
Example InTx_error_rollback_succeeds :
  fst (InTx (Some Background) mockDB
         (unitOfWork mockDB (WReturn (Some (errorString "test error"))))
         initialState)
  = Returned (Some (errorString "test error")).
Proof. reflexivity. Qed.

(** C6 as stated fails: the unit of work of a nested frame is entered with a
    context derived from the given one, not with the given one. *)
Lemma InTx_nested_context_not_the_given_one :
  TxFromContext (WithValue Background TxKey (VTx (Some 7%nat))) = Some 7%nat
  /\ InTx (Some (WithValue Background TxKey (VTx (Some 7%nat)))) mockDB
       noteContext initialState
     = (Returned None,
        mkState
          [EvEnter (WithValue (WithValue Background TxKey (VTx (Some 7%nat)))
                      TxKey (VTx (Some 7%nat)))] 0)
  /\ InTx (Some (WithValue Background TxKey (VTx (Some 7%nat)))) mockDB
       noteContext initialState
     <> noteContext (WithValue Background TxKey (VTx (Some 7%nat)))
          initialState.
Proof.
  split; [reflexivity|]. split; [reflexivity|].
  cbv. intros H. discriminate H.
Qed.

(** C6, amended: a frame whose context carries a transaction does nothing
    but call the unit of work, on the context derived from the given one by
    attaching that same transaction; on the derived context every key,
    [TxKey] included, has the value it has on the given one. *)
Theorem InTx_nested_runs_on_derived_context
    (client : DB) (ctx : Context) (tx : TxPtr) (fn : Context -> M error)
    (st : State) :
  TxFromContext ctx = Some tx ->
  InTx (Some ctx) client fn st = fn (WithValue ctx TxKey (VTx (Some tx))) st
  /\ TxFromContext (WithValue ctx TxKey (VTx (Some tx))) = Some tx
  /\ forall key, Value (WithValue ctx TxKey (VTx (Some tx))) key = Value ctx key.
Proof.
  intros H. split; [apply InTx_nested; exact H|].
  split; [apply (TxFromContext_TxToContext (Some ctx))|].
  intros key. apply (Value_reattach ctx tx key H).
Qed.

Lemma InTx_nested_runs_on_derived_context_witness :
  TxFromContext (WithValue Background TxKey (VTx (Some 7%nat))) = Some 7%nat
  /\ InTx (Some (WithValue Background TxKey (VTx (Some 7%nat)))) mockDB
       noteContext initialState
     = noteContext
         (WithValue (WithValue Background TxKey (VTx (Some 7%nat)))
            TxKey (VTx (Some 7%nat)))
         initialState.
Proof.
  split; [reflexivity|].
  apply (InTx_nested_runs_on_derived_context mockDB
           (WithValue Background TxKey (VTx (Some 7%nat))) 7%nat
           noteContext initialState eq_refl).
Defined.

End TxClaims.

(** A panic in a nested frame passes through it and is handled by the root
    alone. *)
Example InTx_panic_in_nested_frame :
  Tx.InTx (Some Tx.Background) mockDB
    (Tx.unitOfWork mockDB
       (Tx.WWithValue "request_id" "r-1"
          (Tx.chain 1 (Tx.WPanic (Tx.PanicStr "test panic")))))
    initialState
  = (Tx.Panicked (Tx.PanicStr "test panic"),
     Tx.mkState
       [Tx.EvBegin 0%nat;
        Tx.EvEnter (Tx.WithValue Tx.Background Tx.TxKey (Tx.VTx (Some 0%nat)));
        Tx.EvEnter
          (Tx.WithValue
             (Tx.WithValue
                (Tx.WithValue Tx.Background Tx.TxKey (Tx.VTx (Some 0%nat)))
                (Tx.otherKey "request_id") (Tx.VOther "r-1"))
             Tx.TxKey (Tx.VTx (Some 0%nat)));
        Tx.EvRollback 0%nat None]
       1%nat).
Proof. reflexivity. Qed.

(** * Further properties *)

(** ** Escaping and the literals of a path expression *)

Section LiteralFacts.
Import Jsonb SqlLiteral.

Lemma append_cons (x : ascii) (a b : string) :
  String x a +:+ b = String x (a +:+ b).
Proof. reflexivity. Qed.

Lemma append_assoc (a b c : string) : (a +:+ b) +:+ c = a +:+ (b +:+ c).
Proof.
  induction a as [|x a IH]; [reflexivity|].
  rewrite !append_cons, IH. reflexivity.
Qed.

Lemma append_empty_r (a : string) : a +:+ "" = a.
Proof.
  induction a as [|x a IH]; [reflexivity|].
  rewrite append_cons, IH. reflexivity.
Qed.

Lemma run_append (a b : string) :
  forall st, run (a +:+ b) st = run b (run a st).
Proof.
  induction a as [|x a IH]; intros st; [reflexivity|].
  rewrite append_cons. cbn [run]. apply IH.
Qed.

(** Inside a literal, an escaped segment reads back as the segment. *)
Lemma run_escaped (s : string) :
  forall acc out,
    run (escapeJsonPathSegment s) (Inside acc, out) = (Inside (acc +:+ s), out).
Proof.
  induction s as [|c s IH]; intros acc out; cbn [escapeJsonPathSegment].
  - rewrite append_empty_r. reflexivity.
  - destruct (Ascii.eqb c "'"%char) eqn:Hc.
    + apply Ascii.eqb_eq in Hc. subst c. cbn [run step].
      rewrite Ascii.eqb_refl. cbn [step]. rewrite Ascii.eqb_refl.
      rewrite IH, append_assoc. reflexivity.
    + cbn [run step]. rewrite Hc, IH, append_assoc. reflexivity.
Qed.

(** One emitted step closes the literal before it, if any, and leaves its own
    segment as a literal that is just being closed. *)
Lemma run_step_text (operator segment : string) (st : Mode * list string) :
  operator = "->" \/ operator = "->>" ->
  forall out, flush st = Some out ->
    run (sprintf_op operator (escapeJsonPathSegment segment)) st
    = (Closing segment, out).
Proof.
  intros Hop out Hst. unfold sprintf_op.
  assert (H1 : run (" " +:+ operator +:+ " '") st = (Inside "", out)).
  { destruct st as [[|acc|acc] found]; cbn in Hst; try discriminate Hst;
      injection Hst as <-; destruct Hop as [-> | ->]; reflexivity. }
  replace (" " +:+ operator +:+ " '" +:+ escapeJsonPathSegment segment +:+ "'")
    with ((" " +:+ operator +:+ " '")
          +:+ (escapeJsonPathSegment segment +:+ "'"))
    by (destruct Hop as [-> | ->]; reflexivity).
  rewrite run_append, H1, run_append, run_escaped. reflexivity.
Qed.

Lemma literals_emitSegments (wantText : bool) (segs : list string) :
  forall expr out,
    flush (run expr (Outside, [])) = Some out ->
    literals (emitSegments wantText segs expr) = Some (out ++ segs).
Proof.
  unfold literals.
  induction segs as [|s rest IH]; intros expr out Hexpr.
  - cbn [emitSegments]. rewrite app_nil_r. exact Hexpr.
  - destruct rest as [|t rest].
    + cbn [emitSegments]. rewrite run_append.
      destruct wantText.
      * rewrite (run_step_text "->>" s _ (or_intror eq_refl) out Hexpr).
        reflexivity.
      * rewrite (run_step_text "->" s _ (or_introl eq_refl) out Hexpr).
        reflexivity.
    + rewrite (emitSegments_cons wantText s (t :: rest)) by done.
      rewrite (IH _ (out ++ [s])).
      * rewrite <- app_assoc. reflexivity.
      * rewrite run_append.
        rewrite (run_step_text "->" s _ (or_introl eq_refl) out Hexpr).
        reflexivity.
Qed.

(** X1: read as SQL text, the expression that [jsonbPathExpression] builds
    has one string literal per non-empty segment, in order, and the content
    of each literal is that segment, whatever characters it has; no literal
    is left open. *)
Theorem jsonbPathExpression_literals (path : list string) (text : bool) :
  literals (jsonbPathExpression path text) = Some (nonEmptySegments path).
Proof.
  rewrite jsonbPathExpression_emit.
  apply (literals_emitSegments _ _ "?TableAlias.?" []). reflexivity.
Qed.

(** X2: a segment escaped by [escapeJsonPathSegment] and put between quotes
    is one literal, and reading it gives the segment back. *)
Theorem escapeJsonPathSegment_round_trip (segment : string) :
  literals ("'" +:+ escapeJsonPathSegment segment +:+ "'") = Some [segment].
Proof.
  unfold literals.
  change ("'" +:+ escapeJsonPathSegment segment +:+ "'")
    with (String "'"%char (escapeJsonPathSegment segment +:+ "'")).
  cbn [run step]. rewrite Ascii.eqb_refl.
  rewrite run_append, run_escaped. reflexivity.
Qed.

End LiteralFacts.

Example jsonb_literals_with_quotes :
  Jsonb.jsonbPathExpression ["it's"; ""; "a ' -> 'b"] true
  = "?TableAlias.? -> 'it''s' ->> 'a '' -> ''b'"
  /\ SqlLiteral.literals (Jsonb.jsonbPathExpression ["it's"; ""; "a ' -> 'b"] true)
     = Some ["it's"; "a ' -> 'b"].
Proof. split; reflexivity. Qed.

Section PathFacts.
Import Jsonb.

Lemma nonEmptySegments_idempotent (path : list string) :
  nonEmptySegments (nonEmptySegments path) = nonEmptySegments path.
Proof.
  induction path as [|s path IH]; [reflexivity|].
  rewrite nonEmptySegments_cons. destruct (String.eqb s "") eqn:Hs; [exact IH|].
  rewrite nonEmptySegments_cons, Hs, IH. reflexivity.
Qed.

(** X3: the expression built for a path is the one the specification reads
    for it, with text extraction exactly when it was asked for and the
    segment at the last index of the path is not empty. *)
Theorem jsonbPathExpression_text_needs_last_segment
    (path : list string) (text : bool) :
  jsonbPathExpression path text
  = jsonbPathExpression_spec path
      (text && negb (String.eqb (List.last path "") "")).
Proof. rewrite jsonbPathExpression_emit. reflexivity. Qed.

(** X4: without text extraction the empty segments of a path play no role:
    the expression, and with it the selector of
    [WhereJsonbPathObjectsArrayKeyValueEqual], is the one of the path with
    its empty segments removed. *)
Theorem jsonbPathExpression_object_drops_empty_segments
    (Q : Type) (BQ : Bun.SelectQuery Q)
    (col : string) (path : list string) (field : string) (value : Bun.Arg) :
  jsonbPathExpression path false
  = jsonbPathExpression (nonEmptySegments path) false
  /\ @WhereJsonbPathObjectsArrayKeyValueEqual Q BQ col path field value
     = WhereJsonbPathObjectsArrayKeyValueEqual col (nonEmptySegments path)
         field value.
Proof.
  assert (E : jsonbPathExpression path false
              = jsonbPathExpression (nonEmptySegments path) false).
  { rewrite !jsonbPathExpression_emit, nonEmptySegments_idempotent.
    reflexivity. }
  split; [exact E|].
  unfold WhereJsonbPathObjectsArrayKeyValueEqual. rewrite <- E. reflexivity.
Qed.

End PathFacts.

(** ** Composition of selectors *)

Section CompositionFacts.
Context {Q : Type} `{BQ : Bun.SelectQuery Q}.

(** X5: [Apply] of a concatenation runs the first list and then the second,
    and an [Apply] among the arguments of [Apply] can be flattened. *)
Theorem Apply_concatenation_and_flattening (xs ys : list (Selector Q)) (q : Q) :
  runSelector (Apply (xs ++ ys)) q
  = runSelector (Apply ys) (runSelector (Apply xs) q)
  /\ runSelector (Apply (Apply xs :: ys)) q = runSelector (Apply (xs ++ ys)) q.
Proof.
  cbn [runSelector Apply applyLoop]. rewrite applyLoop_app. split; reflexivity.
Qed.

(** X6: an [ApplyIf] among the arguments of [Apply] contributes its
    selectors when the condition holds and nothing otherwise. *)
Theorem ApplyIf_inside_Apply
    (cond : bool) (xs rest : list (Selector Q)) (q : Q) :
  runSelector (Apply (ApplyIf cond xs :: rest)) q
  = runSelector (Apply ((if cond then xs else []) ++ rest)) q.
Proof.
  destruct cond; cbn [runSelector Apply ApplyIf negb applyLoop app].
  - rewrite applyLoop_app. reflexivity.
  - reflexivity.
Qed.

(** X8: the pattern arguments are not escaped for [ILIKE]: a wildcard at the
    edge of the argument of [WhereBegins] or [WhereEnds] gives the selector
    of [WhereContains]. *)
Theorem Where_like_wildcards_pass_through (col substr : string) :
  WhereBegins col ("%" +:+ substr) = @WhereContains Q BQ col substr
  /\ WhereEnds col (substr +:+ "%") = @WhereContains Q BQ col substr.
Proof. split; reflexivity. Qed.

End CompositionFacts.

Lemma applyLoop_single_groups (predicates : list (Selector Bun.Log)) :
  forall acc : Bun.Log,
    applyLoop (List.map (fun p => OrGroup [p]) predicates) acc
    = acc ++ List.map
               (fun p => Bun.CWhereGroup " OR " (runSelector p []))
               predicates.
Proof.
  induction predicates as [|p rest IH]; intros acc.
  - cbn. symmetry. apply app_nil_r.
  - cbn [List.map applyLoop OrGroup]. rewrite IH.
    cbn [Bun.WhereGroup Bun.LogQuery]. rewrite <- app_assoc.
    destruct p; reflexivity.
Qed.

(** X7: on a recording builder [Or] adds one AND-group which holds, for each
    predicate in order, one OR-group with the calls of that predicate alone;
    no two predicates share an OR-group. *)
Theorem Or_records_one_group_per_predicate
    (predicates : list (Selector Bun.Log)) (q : Bun.Log) :
  runSelector (Or predicates) q
  = q ++ [Bun.CWhereGroup " AND "
            (List.map (fun p => Bun.CWhereGroup " OR " (runSelector p []))
               predicates)].
Proof.
  unfold Or, Map. rewrite (MapFrom_map (fun p => OrGroup [p])).
  cbn [runSelector AndGroup Apply Bun.WhereGroup Bun.LogQuery].
  rewrite applyLoop_single_groups. reflexivity.
Qed.

(** ** More on the filter descriptor *)

Lemma setColumns_own (w : Where) :
  setColumns (FlagsCol w) (CreatedAtCol w) (UpdatedAtCol w) w = w.
Proof. destruct w; reflexivity. Qed.

Lemma injectDefaults_columnsSet (w : Where) :
  columnsSet (injectDefaults w) = true.
Proof.
  rewrite <- (setColumns_own w) at 1. rewrite injectDefaults_setColumns.
  unfold columnsSet.
  change (FlagsCol (setColumns ?a ?b ?c ?x)) with a.
  change (CreatedAtCol (setColumns ?a ?b ?c ?x)) with b.
  change (UpdatedAtCol (setColumns ?a ?b ?c ?x)) with c.
  destruct (String.eqb (FlagsCol w) "") eqn:Hf,
    (String.eqb (CreatedAtCol w) "") eqn:Hc,
    (String.eqb (UpdatedAtCol w) "") eqn:Hu;
    rewrite ?Hf, ?Hc, ?Hu; reflexivity.
Qed.

Lemma injectDefaults_fixed (w : Where) :
  columnsSet w = true -> injectDefaults w = w.
Proof.
  unfold columnsSet, injectDefaults. intros H.
  apply andb_prop in H as [H Hu]. apply andb_prop in H as [Hf Hc].
  apply negb_true_iff in Hf, Hc, Hu. cbv zeta.
  rewrite Hf, Hc, Hu. reflexivity.
Qed.

(** X9: the descriptor that [Where] leaves behind has its three column
    fields set, and calling [Where] on it again, on any query, leaves it as
    it is: the assignment of defaults happens once. *)
Theorem Where_defaults_once
    (Q : Type) (BQ : Bun.SelectQuery Q) (w : Where) (q q' : Q) :
  exists w',
    fst (Where_Where (Some w) q) = Some w'
    /\ columnsSet w' = true
    /\ fst (Where_Where (Some w') q') = Some w'.
Proof.
  exists (injectDefaults w). split; [reflexivity|].
  split; [apply injectDefaults_columnsSet|].
  cbn [Where_Where fst].
  rewrite (injectDefaults_fixed _ (injectDefaults_columnsSet w)). reflexivity.
Qed.

Lemma filter_isBitmask_map (f : Z -> Bun.Call) (l : list Z) :
  (forall x, isBitmask (f x) = true) ->
  List.filter isBitmask (List.map f l) = List.map f l.
Proof.
  intros Hf. induction l as [|x l IH]; cbn; [reflexivity|].
  rewrite Hf, IH. reflexivity.
Qed.

(** X10: among the calls that [Where] adds, the bitmask conditions are one
    per entry of [HasFlags], in order and with repetitions, followed by one
    per entry of [HasNotFlags]; the first compare the masked column with the
    flag itself and the second with zero. *)
Theorem Where_one_bitmask_condition_per_flag (w : Where) (q : Bun.Log) :
  exists added,
    snd (Where_Where (Some w) q) = q ++ added
    /\ List.filter isBitmask added
       = List.map
           (fun flag =>
              Bun.CWhere "?TableAlias.? & ? = ?"
                [Bun.Ident "flags"; Bun.Int flag; Bun.Int flag])
           (HasFlags w)
         ++ List.map
              (fun flag =>
                 Bun.CWhere "?TableAlias.? & ? = 0"
                   [Bun.Ident "flags"; Bun.Int flag])
              (HasNotFlags w).
Proof.
  exists (whereCalls w). split; [apply Where_Where_log|].
  unfold whereCalls. rewrite !List.filter_app.
  rewrite !filter_isBitmask_map by reflexivity.
  assert (Hid : List.filter isBitmask (idCalls w) = []).
  { unfold idCalls.
    destruct (negb (String.eqb (ID w) "")), (nonEmptySlice (IDs w)),
      (nonEmptySlice (NotInIDs w)); reflexivity. }
  assert (Hd : List.filter isBitmask (deletedCalls w) = []).
  { unfold deletedCalls. destruct (OnlyDeleted w), (WithDeleted w); reflexivity. }
  assert (Hr : forall col a b, List.filter isBitmask (rangeCalls col a b) = []).
  { intros col [?|] [?|]; reflexivity. }
  rewrite Hid, Hd, !Hr. cbn [app]. rewrite !app_nil_r. reflexivity.
Qed.

(** X11: a descriptor none of whose filter fields is set leaves the query of
    any builder as it is, whatever its column, projection, pagination and
    sort fields hold. *)
Theorem Where_without_filters_is_identity
    (Q : Type) (BQ : Bun.SelectQuery Q) (w : Where) (q : Q) :
  ID w = "" -> IDs w = [] -> NotInIDs w = [] ->
  HasFlags w = [] -> HasNotFlags w = [] ->
  OnlyDeleted w = false -> WithDeleted w = false ->
  CreatedAfter w = None -> CreatedBefore w = None ->
  UpdatedAfter w = None -> UpdatedBefore w = None ->
  snd (Where_Where (Some w) q) = q.
Proof.
  intros H1 H2 H3 H4 H5 H6 H7 H8 H9 H10 H11.
  rewrite Where_Where_query. unfold whereConditions.
  rewrite H1, H2, H3, H4, H5, H6, H7, H8, H9, H10, H11. reflexivity.
Qed.

Lemma Where_without_filters_is_identity_witness :
  ID (mkWhere "" [] [] [] [] false false (Some 10%Z) (Some 20%Z)
        "custom_flags" "" "" None None None None ["name"] [] 1 true
        (<[1%Z := "name"]> ∅)) = ""
  /\ snd (Where_Where
            (Some (mkWhere "" [] [] [] [] false false (Some 10%Z) (Some 20%Z)
                     "custom_flags" "" "" None None None None ["name"] [] 1 true
                     (<[1%Z := "name"]> ∅)))
            [Bun.CLimit 3])
     = [Bun.CLimit 3].
Proof.
  split; [reflexivity|].
  apply (Where_without_filters_is_identity Bun.Log Bun.LogQuery
           (mkWhere "" [] [] [] [] false false (Some 10%Z) (Some 20%Z)
              "custom_flags" "" "" None None None None ["name"] [] 1 true
              (<[1%Z := "name"]> ∅))
           [Bun.CLimit 3]); reflexivity.
Defined.

(** ** More on ambient transactions *)

Section MoreTxFacts.
Import Tx.
Local Open Scope nat_scope.

Lemma inTxWith_root_commit (client : DB) (ctx : Context)
    (fn : Context -> M error) (tx : TxPtr) (st st' : State) :
  fn (TxToContext (Some ctx) (Some tx)) st = (Returned None, st') ->
  inTxWith ctx client fn true tx st
  = (Returned (commitErr client tx (events st')),
     record (EvCommit tx (commitErr client tx (events st'))) st').
Proof.
  intros Hfn. unfold inTxWith. cbn [negb]. unfold deferRecover, bind at 1.
  rewrite Hfn. unfold bind, Commit, ret.
  destruct (commitErr client tx (events st')); reflexivity.
Qed.

(** X12: what [TxToContext] attaches is what [TxFromContext] finds, also
    when the given context is nil, and the value of every other key is the
    one of the given context (none when that is nil). *)
Theorem TxToContext_round_trip
    (ctx : option Context) (tx : option TxPtr) (key : Key) :
  key <> TxKey ->
  TxFromContext (TxToContext ctx tx) = tx
  /\ Value (TxToContext ctx tx) key
     = match ctx with Some c => Value c key | None => None end.
Proof.
  intros Hkey. split; [apply TxFromContext_TxToContext|].
  unfold TxToContext. cbn [Value].
  destruct (decide (TxKey = key)) as [E|]; [congruence|].
  destruct ctx; reflexivity.
Qed.

Lemma TxToContext_round_trip_witness :
  otherKey "user" <> TxKey
  /\ TxFromContext
       (TxToContext (Some (WithValue Background (otherKey "user") (VOther "u1")))
          (Some 3))
     = Some 3
  /\ Value
       (TxToContext (Some (WithValue Background (otherKey "user") (VOther "u1")))
          (Some 3))
       (otherKey "user")
     = Value (WithValue Background (otherKey "user") (VOther "u1"))
         (otherKey "user").
Proof.
  split; [discriminate|].
  apply (TxToContext_round_trip
           (Some (WithValue Background (otherKey "user") (VOther "u1")))
           (Some 3) (otherKey "user")).
  discriminate.
Defined.

(** X13: when the unit of work of a root frame returns nil, [InTx] commits
    and returns what the commit returns, its error included; nothing is
    rolled back, also when the commit fails. *)
Theorem InTx_root_success_commits
    (client : DB) (ctx : Context) (fn : Context -> M error) (st st' : State) :
  TxFromContext ctx = None ->
  beginErr client (events st) = None ->
  fn (TxToContext (Some ctx) (Some (nextTx st)))
     (mkState (events st ++ [EvBegin (nextTx st)]) (S (nextTx st)))
  = (Returned None, st') ->
  InTx (Some ctx) client fn st
  = (Returned (commitErr client (nextTx st) (events st')),
     record (EvCommit (nextTx st) (commitErr client (nextTx st) (events st')))
       st').
Proof.
  intros Hctx Hbegin Hfn. rewrite InTx_root by assumption.
  apply inTxWith_root_commit. exact Hfn.
Qed.

Lemma InTx_root_success_commits_witness :
  TxFromContext Background = None
  /\ beginErr failingCommitDB (events initialState) = None
  /\ InTx (Some Background) failingCommitDB noteContext initialState
     = (Returned (Some (errorString "commit failed")),
        mkState
          [EvBegin 0; EvEnter (WithValue Background TxKey (VTx (Some 0)));
           EvCommit 0 (Some (errorString "commit failed"))] 1).
Proof.
  split; [reflexivity|]. split; [reflexivity|].
  apply (InTx_root_success_commits failingCommitDB Background noteContext
           initialState
           (mkState
              [EvBegin 0; EvEnter (WithValue Background TxKey (VTx (Some 0)))]
              1));
    reflexivity.
Defined.

(** X14: when the transaction cannot be begun, [InTx] returns the error of
    the begin, the unit of work is not called, and nothing is committed or
    rolled back. *)
Theorem InTx_begin_failure_skips_unit_of_work
    (client : DB) (ctx : Context) (fn : Context -> M error) (st : State)
    (err : GoError) :
  TxFromContext ctx = None ->
  beginErr client (events st) = Some err ->
  InTx (Some ctx) client fn st
  = (Returned (Some err), mkState (events st ++ [EvBeginFailed err]) (nextTx st))
  /\ forall fn', InTx (Some ctx) client fn' st = InTx (Some ctx) client fn st.
Proof.
  intros Hctx Hbegin. split.
  - apply InTx_begin_fails; assumption.
  - intros fn'. rewrite !(InTx_begin_fails _ _ _ _ err) by assumption.
    reflexivity.
Qed.

Lemma InTx_begin_failure_skips_unit_of_work_witness :
  TxFromContext Background = None
  /\ beginErr failingBeginDB (events initialState)
     = Some (errorString "connection refused")
  /\ InTx (Some Background) failingBeginDB
       (unitOfWork failingBeginDB (WPanic (PanicStr "not reached")))
       initialState
     = (Returned (Some (errorString "connection refused")),
        mkState
          (events initialState ++ [EvBeginFailed (errorString "connection refused")])
          (nextTx initialState)).
Proof.
  split; [reflexivity|]. split; [reflexivity|].
  apply (InTx_begin_failure_skips_unit_of_work failingBeginDB Background
           (unitOfWork failingBeginDB (WPanic (PanicStr "not reached")))
           initialState (errorString "connection refused"));
    reflexivity.
Defined.

(** X15: a value of another type stored under [TxKey], or a nil transaction
    pointer attached by [TxToContext], hides a transaction further up the
    context chain: [TxFromContext] finds none, and [InTx] on such a context
    begins and commits a transaction of its own. *)
Theorem InTx_hidden_transaction_begins_another
    (client : DB) (ctx hidden : Context) (tx : TxPtr) (other : string)
    (fn : Context -> M error) (st st' : State) :
  TxFromContext ctx = Some tx ->
  hidden = WithValue ctx TxKey (VOther other)
  \/ hidden = TxToContext (Some ctx) None ->
  beginErr client (events st) = None ->
  fn (TxToContext (Some hidden) (Some (nextTx st)))
     (mkState (events st ++ [EvBegin (nextTx st)]) (S (nextTx st)))
  = (Returned None, st') ->
  TxFromContext hidden = None
  /\ InTx (Some hidden) client fn st
     = (Returned (commitErr client (nextTx st) (events st')),
        record (EvCommit (nextTx st) (commitErr client (nextTx st) (events st')))
          st').
Proof.
  intros _ Hhidden Hbegin Hfn.
  assert (Hnone : TxFromContext hidden = None).
  { destruct Hhidden as [-> | ->].
    - unfold TxFromContext. cbn [Value].
      destruct (decide (TxKey = TxKey)); [reflexivity | congruence].
    - apply TxFromContext_TxToContext. }
  split; [exact Hnone|].
  rewrite InTx_root by assumption. apply inTxWith_root_commit. exact Hfn.
Qed.

Lemma InTx_hidden_transaction_begins_another_witness :
  TxFromContext (WithValue Background TxKey (VTx (Some 7))) = Some 7
  /\ TxFromContext
       (WithValue (WithValue Background TxKey (VTx (Some 7))) TxKey
          (VOther "not a transaction"))
     = None
  /\ InTx
       (Some (WithValue (WithValue Background TxKey (VTx (Some 7))) TxKey
                (VOther "not a transaction")))
       mockDB noteContext (mkState [EvBegin 7] 8)
     = (Returned None,
        mkState
          [EvBegin 7; EvBegin 8;
           EvEnter
             (WithValue
                (WithValue (WithValue Background TxKey (VTx (Some 7))) TxKey
                   (VOther "not a transaction"))
                TxKey (VTx (Some 8)));
           EvCommit 8 None] 9).
Proof.
  split; [reflexivity|].
  apply (InTx_hidden_transaction_begins_another mockDB
           (WithValue Background TxKey (VTx (Some 7)))
           (WithValue (WithValue Background TxKey (VTx (Some 7))) TxKey
              (VOther "not a transaction"))
           7 "not a transaction" noteContext (mkState [EvBegin 7] 8)
           (mkState
              [EvBegin 7; EvBegin 8;
               EvEnter
                 (WithValue
                    (WithValue (WithValue Background TxKey (VTx (Some 7))) TxKey
                       (VOther "not a transaction"))
                    TxKey (VTx (Some 8)))] 9));
    first [reflexivity | left; reflexivity].
Defined.

End MoreTxFacts.

(** ** The querier inside InTx *)

Section QuerierFacts.
Import Tx Querier.

Lemma statements_in_transaction (r : querier) (ctx : Context) (tx : TxPtr) :
  TxFromContext ctx = Some tx ->
  statements r ctx
  = List.map (fun k => mkStmt k (OnTx tx)) [KSelect; KInsert; KUpdate; KDelete].
Proof.
  intros H. unfold statements, NewSelectQuery, NewInsertQuery, NewUpdateQuery,
    NewDeleteQuery. rewrite H. reflexivity.
Qed.

(** X16: in the unit of work of a root frame, each of the four statements of
    a querier is created from the transaction that the frame has just begun,
    not from the database of the querier. *)
Theorem Querier_in_root_frame_uses_begun_transaction
    (client : DB) (r : querier) (ctx : Context)
    (body : list Stmt -> M error) (st : State) :
  TxFromContext ctx = None ->
  beginErr client (events st) = None ->
  InTx (Some ctx) client (fun c => body (statements r c)) st
  = InTx (Some ctx) client
      (fun _ =>
         body (List.map (fun k => mkStmt k (OnTx (nextTx st)))
                 [KSelect; KInsert; KUpdate; KDelete]))
      st.
Proof.
  intros Hctx Hbegin. rewrite !InTx_root by assumption.
  unfold inTxWith. cbn [negb]. cbv beta.
  rewrite (statements_in_transaction r _ (nextTx st))
    by apply TxFromContext_TxToContext.
  reflexivity.
Qed.

Lemma Querier_in_root_frame_uses_begun_transaction_witness :
  TxFromContext Background = None
  /\ beginErr mockDB (events initialState) = None
  /\ InTx (Some Background) mockDB
       (fun c =>
          match statements (NewQuerier mockDB) c with
          | [mkStmt KSelect (OnTx _); mkStmt KInsert (OnTx _);
             mkStmt KUpdate (OnTx _); mkStmt KDelete (OnTx _)] => ret None
          | _ => ret (Some (errorString "statement outside the transaction"))
          end)
       initialState
     = (Returned None, mkState [EvBegin 0%nat; EvCommit 0%nat None] 1%nat).
Proof.
  split; [reflexivity|]. split; [reflexivity|].
  rewrite (Querier_in_root_frame_uses_begun_transaction mockDB
             (NewQuerier mockDB) Background
             (fun stmts =>
                match stmts with
                | [mkStmt KSelect (OnTx _); mkStmt KInsert (OnTx _);
                   mkStmt KUpdate (OnTx _); mkStmt KDelete (OnTx _)] => ret None
                | _ => ret (Some (errorString "statement outside the transaction"))
                end)
             initialState eq_refl eq_refl).
  reflexivity.
Defined.

(** X17: in the unit of work of a frame whose context carries a transaction,
    each of the four statements of a querier is created from that
    transaction. *)
Theorem Querier_in_nested_frame_uses_ambient_transaction
    (client : DB) (r : querier) (ctx : Context) (tx : TxPtr)
    (body : list Stmt -> M error) (st : State) :
  TxFromContext ctx = Some tx ->
  InTx (Some ctx) client (fun c => body (statements r c)) st
  = body (List.map (fun k => mkStmt k (OnTx tx))
            [KSelect; KInsert; KUpdate; KDelete])
      st.
Proof.
  intros Hctx. rewrite (InTx_nested _ _ tx) by exact Hctx.
  rewrite (statements_in_transaction r _ tx)
    by apply TxFromContext_TxToContext.
  reflexivity.
Qed.

Lemma Querier_in_nested_frame_uses_ambient_transaction_witness :
  TxFromContext (WithValue Background TxKey (VTx (Some 7%nat))) = Some 7%nat
  /\ InTx (Some (WithValue Background TxKey (VTx (Some 7%nat)))) mockDB
       (fun c =>
          (fun stmts : list Stmt => ret (A := error) None)
            (statements (NewQuerier mockDB) c))
       initialState
     = (fun stmts : list Stmt => ret (A := error) None)
         (List.map (fun k => mkStmt k (OnTx 7%nat))
            [KSelect; KInsert; KUpdate; KDelete])
         initialState.
Proof.
  split; [reflexivity|].
  apply (Querier_in_nested_frame_uses_ambient_transaction mockDB
           (NewQuerier mockDB) (WithValue Background TxKey (VTx (Some 7%nat)))
           7%nat (fun stmts : list Stmt => ret (A := error) None) initialState).
  reflexivity.
Defined.

End QuerierFacts.

(** ** Error classification *)

Section ErrorFacts.
Import Tx Errors.

Lemma hasPrefix_spec (prefix : string) :
  forall s, hasPrefix s prefix = true <-> exists post, s = prefix +:+ post.
Proof.
  induction prefix as [|p prefix IH]; intros s.
  - split; [intros _; exists s; reflexivity | destruct s; reflexivity].
  - destruct s as [|c s]; cbn [hasPrefix].
    + split; [discriminate | intros [post H]; discriminate H].
    + rewrite andb_true_iff, Ascii.eqb_eq, IH. split.
      * intros [-> [post ->]]. exists post. reflexivity.
      * intros [post H]. rewrite append_cons in H. injection H as -> ->.
        split; [reflexivity | exists post; reflexivity].
Qed.

Lemma contains_spec (substr : string) :
  forall s,
    contains s substr = true
    <-> exists pre post, s = pre +:+ substr +:+ post.
Proof.
  induction s as [|c s IH]; cbn [contains]; rewrite orb_true_iff, hasPrefix_spec.
  - split.
    + intros [[post H] | H]; [|discriminate H].
      exists "", post. exact H.
    + intros [pre [post H]]. left. destruct pre as [|x pre].
      * exists post. exact H.
      * rewrite append_cons in H. discriminate H.
  - rewrite IH. split.
    + intros [[post H] | [pre [post H]]].
      * exists "", post. exact H.
      * exists (String c pre), post. rewrite append_cons, H. reflexivity.
    + intros [pre [post H]]. destruct pre as [|x pre].
      * left. exists post. exact H.
      * right. rewrite append_cons in H. injection H as -> ->.
        exists pre, post. reflexivity.
Qed.

Lemma contains_append (a b substr : string) :
  contains a substr = true -> contains (a +:+ b) substr = true.
Proof.
  rewrite !contains_spec. intros [pre [post ->]].
  exists pre, (post +:+ b). rewrite !append_assoc. reflexivity.
Qed.

(** X18: [IsConstraintError] holds of a non-nil error exactly when its
    message has the text of the unique-constraint violation somewhere in it,
    with anything before and after. *)
Theorem IsConstraintError_message_anywhere (e : GoError) :
  IsConstraintError (Some e) = Returned true
  <-> exists pre post,
        Error e
        = pre +:+ "duplicate key value violates unique constraint" +:+ post.
Proof.
  unfold IsConstraintError. rewrite <- contains_spec. split.
  - intros H. injection H as H. exact H.
  - intros H. unfold constraintMessage. rewrite H. reflexivity.
Qed.


(** X20: when the unit of work of a root frame fails with an error, the
    error that [InTx] returns is a not-found error exactly when the error of
    the unit of work is one, whether or not the rollback fails. *)
Theorem InTx_keeps_not_found
    (client : DB) (ctx : Context) (fn : Context -> M error)
    (st st' : State) (e : GoError) :
  TxFromContext ctx = None ->
  beginErr client (events st) = None ->
  fn (TxToContext (Some ctx) (Some (nextTx st)))
     (mkState (events st ++ [EvBegin (nextTx st)]) (S (nextTx st)))
  = (Returned (Some e), st') ->
  exists result,
    fst (InTx (Some ctx) client fn st) = Returned (Some result)
    /\ IsNotFoundError (Some result) = IsNotFoundError (Some e).
Proof.
  intros Hctx Hbegin Hfn. rewrite InTx_root by assumption.
  unfold inTxWith. cbn [negb]. unfold deferRecover, bind at 1.
  rewrite Hfn. unfold bind, Rollback, ret.
  destruct (rollbackErr client (nextTx st) (events st')) as [re|].
  - exists (Errorf_rollback e re). split; [reflexivity|].
    cbn [IsNotFoundError errors_Is Errorf_rollback].
    destruct (decide (wrapError _ e = ErrNoRows)) as [E|]; [discriminate E|].
    reflexivity.
  - exists e. split; reflexivity.
Qed.

Lemma InTx_keeps_not_found_witness :
  TxFromContext Background = None
  /\ beginErr failingRollbackDB (events initialState) = None
  /\ exists result,
       fst (InTx (Some Background) failingRollbackDB
              (unitOfWork failingRollbackDB (WReturn (Some ErrNoRows)))
              initialState)
       = Returned (Some result)
       /\ IsNotFoundError (Some result) = IsNotFoundError (Some ErrNoRows).
Proof.
  split; [reflexivity|]. split; [reflexivity|].
  apply (InTx_keeps_not_found failingRollbackDB Background
           (unitOfWork failingRollbackDB (WReturn (Some ErrNoRows)))
           initialState
           (mkState
              [EvBegin 0%nat;
               EvEnter (WithValue Background TxKey (VTx (Some 0%nat)))] 1%nat)
           ErrNoRows);
    reflexivity.
Defined.

(** X21: when the unit of work of a root frame fails with a constraint
    error, the error that [InTx] returns is a constraint error too, whether
    or not the rollback fails. *)
Theorem InTx_keeps_constraint_error
    (client : DB) (ctx : Context) (fn : Context -> M error)
    (st st' : State) (e : GoError) :
  TxFromContext ctx = None ->
  beginErr client (events st) = None ->
  fn (TxToContext (Some ctx) (Some (nextTx st)))
     (mkState (events st ++ [EvBegin (nextTx st)]) (S (nextTx st)))
  = (Returned (Some e), st') ->
  IsConstraintError (Some e) = Returned true ->
  exists result,
    fst (InTx (Some ctx) client fn st) = Returned (Some result)
    /\ IsConstraintError (Some result) = Returned true.
Proof.
  intros Hctx Hbegin Hfn He. rewrite InTx_root by assumption.
  unfold inTxWith. cbn [negb]. unfold deferRecover, bind at 1.
  rewrite Hfn. unfold bind, Rollback, ret.
  destruct (rollbackErr client (nextTx st) (events st')) as [re|].
  - exists (Errorf_rollback e re). split; [reflexivity|].
    unfold IsConstraintError in *. injection He as He.
    cbn [Errorf_rollback Error]. rewrite (contains_append _ _ _ He).
    reflexivity.
  - exists e. split; [reflexivity | exact He].
Qed.

Lemma InTx_keeps_constraint_error_witness :
  TxFromContext Background = None
  /\ beginErr failingRollbackDB (events initialState) = None
  /\ IsConstraintError
       (Some (errorString
                "ERROR: duplicate key value violates unique constraint users_email_key"))
     = Returned true
  /\ exists result,
       fst (InTx (Some Background) failingRollbackDB
              (unitOfWork failingRollbackDB
                 (WReturn
                    (Some (errorString
                             "ERROR: duplicate key value violates unique constraint users_email_key"))))
              initialState)
       = Returned (Some result)
       /\ IsConstraintError (Some result) = Returned true.
Proof.
  split; [reflexivity|]. split; [reflexivity|]. split; [reflexivity|].
  apply (InTx_keeps_constraint_error failingRollbackDB Background
           (unitOfWork failingRollbackDB
              (WReturn
                 (Some (errorString
                          "ERROR: duplicate key value violates unique constraint users_email_key"))))
           initialState
           (mkState
              [EvBegin 0%nat;
               EvEnter (WithValue Background TxKey (VTx (Some 0%nat)))] 1%nat)
           (errorString
              "ERROR: duplicate key value violates unique constraint users_email_key"));
    reflexivity.
Defined.

End ErrorFacts.

(** The table of the tests of the error helpers. *)
Example IsConstraintError_tests :
  Errors.IsConstraintError
    (Some (Tx.errorString "duplicate key value violates unique constraint"))
  = Tx.Returned true
  /\ Errors.IsConstraintError (Some (Tx.errorString "connection refused"))
     = Tx.Returned false
  /\ Errors.IsNotFoundError
       (Some (Tx.wrapError "failed to find user: sql: no rows in result set"
                Errors.ErrNoRows))
     = true
  /\ Errors.IsNotFoundError (Some (Tx.errorString "some error")) = false
  /\ Errors.IsNotFoundError None = false.
Proof. repeat split; reflexivity. Qed.

(** ** The inclusion list of the descriptor *)

Lemma filter_map_none {A : Type} (p : Bun.Call -> bool) (f : A -> Bun.Call)
    (l : list A) :
  (forall x, p (f x) = false) -> List.filter p (List.map f l) = [].
Proof.
  intros Hf. induction l as [|x l IH]; cbn; [reflexivity|].
  rewrite Hf. exact IH.
Qed.

Lemma nonEmptySlice_cons {A : Type} (x : A) (l : list A) :
  nonEmptySlice (x :: l) = true.
Proof. unfold nonEmptySlice. apply Z.ltb_lt. cbn [List.length]. lia. Qed.

(** X22: [Where] adds one inclusion condition, on the id column and with the
    whole of [IDs] as its list, when [IDs] has an element, and none when
    [IDs] is empty: an empty inclusion list does not filter. *)
Theorem Where_inclusion_condition (w : Where) (q : Bun.Log) :
  exists added,
    snd (Where_Where (Some w) q) = q ++ added
    /\ List.filter isInclusion added
       = match IDs w with
         | [] => []
         | _ :: _ =>
             [Bun.CWhere "?TableAlias.? IN (?)" [Bun.Ident "id"; Bun.In (IDs w)]]
         end.
Proof.
  exists (whereCalls w). split; [apply Where_Where_log|].
  unfold whereCalls. rewrite !List.filter_app.
  rewrite !filter_map_none by reflexivity.
  assert (Hd : List.filter isInclusion (deletedCalls w) = []).
  { unfold deletedCalls. destruct (OnlyDeleted w), (WithDeleted w); reflexivity. }
  assert (Hr : forall col a b, List.filter isInclusion (rangeCalls col a b) = []).
  { intros col [?|] [?|]; reflexivity. }
  rewrite Hd, !Hr. cbn [app]. rewrite !app_nil_r.
  unfold idCalls. destruct (IDs w) as [|x l].
  - destruct (negb (String.eqb (ID w) "")), (nonEmptySlice (NotInIDs w));
      reflexivity.
  - rewrite nonEmptySlice_cons.
    destruct (negb (String.eqb (ID w) "")), (nonEmptySlice (NotInIDs w));
      reflexivity.
Qed.

(** The descriptor of the test "with IDs". *)
Example Where_with_three_ids :
  snd (Where_Where
         (Some (mkWhere "" ["1"; "2"; "3"] [] [] [] false false None None "" "" ""
                  None None None None [] [] 0 false ∅))
         ([] : Bun.Log))
  = [Bun.CWhere "?TableAlias.? IN (?)"
       [Bun.Ident "id"; Bun.In ["1"; "2"; "3"]]].
Proof. reflexivity. Qed.
